(** * Asia SST dashboard: a shallow embedding of [streamlit_app.py]

    The dashboard fetches one day of NOAA OISST sea-surface temperature
    through OPeNDAP, cuts it to the Asia box and draws it.  The program is
    embedded as pure functions over an explicit environment:

    - Python's [datetime.date] with its ordinal arithmetic;
    - exceptions and the UI / network side effects as an error monad that
      accumulates a trace of events;
    - the part of xarray the fetcher uses (open, [in], [sel], [squeeze],
      [load], [close]) over a remote dataset given by the environment;
    - Streamlit's [st.cache_data] as a memo table keyed by the date;
    - the part of Matplotlib the renderers use ([TwoSlopeNorm], the
      colormap lookup, [pcolormesh], axis limits).

    Temperatures and coordinates are binary floats in the program; they are
    rationals here (every finite float is one), with NaN as [None]. *)

From Stdlib Require Import ZArith QArith Qabs Qround List String Ascii DecimalString DecimalZ Lia Lqa Bool.
From stdpp Require Import base option list gmap strings.

Open Scope string_scope.
Open Scope list_scope.
Open Scope Z_scope.

(** ** Python's [datetime.date] *)

Module Py.

Record date := mkdate { year : Z; month : Z; day : Z }.

Definition _is_leap (y : Z) : bool :=
  (y mod 4 =? 0) && (negb (y mod 100 =? 0) || (y mod 400 =? 0)).

Definition _DAYS_IN_MONTH (m : Z) : Z :=
  match m with
  | 1 => 31 | 2 => 28 | 3 => 31 | 4 => 30 | 5 => 31 | 6 => 30
  | 7 => 31 | 8 => 31 | 9 => 30 | 10 => 31 | 11 => 30 | 12 => 31
  | _ => -1
  end.

Definition _DAYS_BEFORE_MONTH (m : Z) : Z :=
  match m with
  | 1 => 0 | 2 => 31 | 3 => 59 | 4 => 90 | 5 => 120 | 6 => 151
  | 7 => 181 | 8 => 212 | 9 => 243 | 10 => 273 | 11 => 304 | 12 => 334
  | _ => -1
  end.

Definition _days_in_month (y m : Z) : Z :=
  if (m =? 2) && _is_leap y then 29 else _DAYS_IN_MONTH m.

Definition _days_before_year (y : Z) : Z :=
  let y := y - 1 in y * 365 + y / 4 - y / 100 + y / 400.

Definition _days_before_month (y m : Z) : Z :=
  _DAYS_BEFORE_MONTH m + (if (2 <? m) && _is_leap y then 1 else 0).

Definition _ymd2ord (y m d : Z) : Z :=
  _days_before_year y + _days_before_month y m + d.

Definition _DI400Y : Z := 146097.
Definition _DI100Y : Z := 36524.
Definition _DI4Y : Z := 1461.

Definition _ord2ymd (n : Z) : date :=
  let n := n - 1 in
  let n400 := n / _DI400Y in
  let n := n mod _DI400Y in
  let y := n400 * 400 + 1 in
  let n100 := n / _DI100Y in
  let n := n mod _DI100Y in
  let n4 := n / _DI4Y in
  let n := n mod _DI4Y in
  let n1 := n / 365 in
  let n := n mod 365 in
  let y := y + n100 * 100 + n4 * 4 + n1 in
  if (n1 =? 4) || (n100 =? 4) then mkdate (y - 1) 12 31
  else
    let leapyear := (n1 =? 3) && (negb (n4 =? 24) || (n100 =? 3)) in
    let m := Z.shiftr (n + 50) 5 in
    let preceding :=
      _DAYS_BEFORE_MONTH m + (if (2 <? m) && leapyear then 1 else 0) in
    if n <? preceding then
      let m := m - 1 in
      let preceding :=
        preceding
        - (_DAYS_IN_MONTH m + (if (m =? 2) && leapyear then 1 else 0)) in
      mkdate y m (n - preceding + 1)
    else mkdate y m (n - preceding + 1).

Definition MINYEAR : Z := 1.
Definition MAXYEAR : Z := 9999.
Definition _MAXORDINAL : Z := 3652059.

(** The invariant every [date] object satisfies (the constructor checks it). *)
Definition valid_date (d : date) : Prop :=
  MINYEAR <= year d <= MAXYEAR /\ 1 <= month d <= 12 /\
  1 <= day d <= _days_in_month (year d) (month d).

Definition toordinal (d : date) : Z := _ymd2ord (year d) (month d) (day d).

(** [d - timedelta(days=k)]; [None] stands for the [OverflowError] raised
    when the result leaves the supported range. *)
Definition sub_days (d : date) (k : Z) : option date :=
  let o := toordinal d - k in
  if (0 <? o) && (o <=? _MAXORDINAL) then Some (_ord2ymd o) else None.

(** Dates compare as the triples (year, month, day). *)
Definition date_cmp (a b : date) : comparison :=
  match year a ?= year b with
  | Eq => match month a ?= month b with
          | Eq => day a ?= day b
          | c => c
          end
  | c => c
  end.

Definition date_leb (a b : date) : bool :=
  match date_cmp a b with Gt => false | _ => true end.

(** [str(n)] / [f"{n}"] for an int. *)
Definition str_int (n : Z) : string := NilZero.string_of_int (Z.to_int n).

(** [%m] and [%d]: two digits, zero padded. *)
Definition pad2 (n : Z) : string :=
  if (0 <=? n) && (n <? 10) then "0" +:+ str_int n else str_int n.

(** [d.strftime('%Y년 %m월 %d일')] (for the years the picker offers, [%Y]
    prints the four digits of the year). *)
Definition strftime_kr (d : date) : string :=
  str_int (year d) +:+ "년 " +:+ pad2 (month d) +:+ "월 " +:+ pad2 (day d) +:+ "일".

(** The integer nearest to [x], the even one of the two when [x] lies half
    way: how a float is rounded when it is printed with a fixed number of
    digits. *)
Definition round_half_even (x : Q) : Z :=
  let f := Qfloor x in
  match (x - inject_Z f ?= 1 # 2)%Q with
  | Lt => f
  | Gt => f + 1
  | Eq => if Z.even f then f else f + 1
  end.

(** [f"{x:.2f}"] for a float. *)
Definition format_2f (x : Q) : string :=
  let n := round_half_even (Qabs x * inject_Z 100)%Q in
  (if Qle_bool 0 x then EmptyString else "-")
  +:+ str_int (n / 100) +:+ "." +:+ pad2 (n mod 100).

(** [d.strftime('%Y-%m-%d')]. *)
Definition strftime_iso (d : date) : string :=
  str_int (year d) +:+ "-" +:+ pad2 (month d) +:+ "-" +:+ pad2 (day d).

(** [np.datetime64(d)] as pandas compares it with a [datetime64[ns]] time
    axis: nanoseconds since 1970-01-01T00:00. *)
Definition EPOCH_ORDINAL : Z := 719163.
Definition NS_PER_DAY : Z := 86400 * 1000000000.
Definition datetime64 (d : date) : Z := (toordinal d - EPOCH_ORDINAL) * NS_PER_DAY.

End Py.

Import Py.

#[global] Instance date_eq_dec : EqDecision date.
Proof. solve_decision. Defined.

#[global] Instance date_countable : Countable date.
Proof.
  refine (inj_countable' (fun d => (year d, month d, day d))
            (fun t => match t with (y, m, d) => mkdate y m d end) _).
  intros []; reflexivity.
Defined.

(** ** Exceptions, values and events *)

(** An instance of a subclass of Python's [Exception]: its class and what
    [str(e)] prints.  Everything the libraries raise on a failed fetch
    (OSError, RuntimeError, KeyError, ValueError, ...) is of this kind, and
    this is what [except Exception] catches. *)
Record exn := Exn { exn_class : string; exn_str : string }.

Definition dquote : string := String "034"%char EmptyString.

(** [str(KeyError(msg))] is [repr(msg)]; both messages below contain single
    quotes, so [repr] wraps them in double quotes. *)
Definition KeyError (msg : string) : exn :=
  Exn "KeyError" (dquote +:+ msg +:+ dquote).
Definition ValueError (msg : string) : exn := Exn "ValueError" msg.

(** A grid cell: a temperature in degrees Celsius, or NaN. *)
Definition cell := option Q.

(** The remote archive behind one opened handle, as xarray decodes it: the
    names of its variables, the three coordinate axes of [sst], the lazy
    read of [sst[t, i, j]] by position, and how the handle behaves when the
    data is pulled and when it is closed. *)
Record Dataset := {
  ds_variables : list string;
  ds_time : list Z;
  ds_lat : list Q;
  ds_lon : list Q;
  ds_sst : nat -> nat -> nat -> cell;
  ds_load_error : option exn;
  ds_close_error : option exn
}.

(** The lazy result of [ds["sst"].sel(...)]: the selected time stamp and its
    position, the selected positions of the two axes with their labels, and
    the dimensions that remain. *)
Record LazyArray := {
  la_time : Z;
  la_tpos : nat;
  la_lat : list (nat * Q);
  la_lon : list (nat * Q);
  la_dims : list string
}.

(** A [DataArray] held in memory. *)
Record DataArray := {
  da_time : Z;
  da_lat : list Q;
  da_lon : list Q;
  da_dims : list string;
  da_values : list (list cell)
}.

(** [TwoSlopeNorm(vmin, vcenter, vmax)]. *)
Record TwoSlopeNorm := { vmin : Q; vcenter : Q; vmax : Q }.

(** What a renderer has put on the figure it returns. *)
Record Figure := {
  fig_size : Z * Z;
  fig_projection : option string;
  fig_features : list (string * Z);
  fig_extent : option (Z * Z * Z * Z);
  fig_gridline_labels : option (list string);
  fig_norm : TwoSlopeNorm;
  fig_cmap : string;
  fig_mesh : DataArray;
  fig_colorbar_label : string;
  fig_xlabel : option string;
  fig_ylabel : option string;
  fig_title : string;
  fig_xlim : option (Q * Q);
  fig_ylim : option (Q * Q);
  fig_grid : option (string * Q)
}.

Inductive renderer := Cartopy | Plain.

(** Everything observable of a run: Streamlit elements, the calls on the
    remote dataset (a handle is named by the engine that opened it), and the
    calls of the two renderers. *)
Inductive event :=
| StInfo (msg : string)
| StError (msg : string)
| StWarning (msg : string)
| StTitle (msg : string)
| StMarkdown (msg : string)
| StSubheader (msg : string)
| StSidebarHeader (msg : string)
| StCaption (msg : string)
| StPyplot (fig : Figure)
| StWrite (data : DataArray)
| XrOpen (url : string) (engine : option string) (opened : bool)
| XrLoad (engine : option string)
| XrClose (engine : option string)
| Render (r : renderer) (data : DataArray).

(** ** The monad: a result or a raised exception, with the trace so far *)

Inductive result (A : Type) :=
| Return (a : A)
| Raise (e : exn).
Arguments Return {A} a.
Arguments Raise {A} e.

Definition M (A : Type) : Type := result A * list event.

Definition ret {A} (a : A) : M A := (Return a, []).
Definition raise {A} (e : exn) : M A := (Raise e, []).
Definition emit (ev : event) : M unit := (Return tt, [ev]).

Definition bind {A B} (m : M A) (k : A -> M B) : M B :=
  match m with
  | (Return a, t) => let (r, t') := k a in (r, t ++ t')
  | (Raise e, t) => (Raise e, t)
  end.

(** [try: m  except Exception as e: h e]. *)
Definition try_except {A} (m : M A) (h : exn -> M A) : M A :=
  match m with
  | (Raise e, t) => let (r, t') := h e in (r, t ++ t')
  | ok => ok
  end.

Declare Scope py_scope.
Delimit Scope py_scope with py.
Notation "x <- m ;; k" := (bind m (fun x => k))
  (at level 100, m at next level, right associativity) : py_scope.
Notation "m ;;; k" := (bind m (fun _ => k))
  (at level 100, right associativity) : py_scope.

Definition outcome {A} (m : M A) : result A := fst m.
Definition trace {A} (m : M A) : list event := snd m.

(** ** The environment *)

(** What the network answers when a locator is opened through an engine
    ([None] is xarray's default engine): an error, or a handle on the
    archive. *)
Record world := {
  remote : string -> option string -> exn + Dataset
}.

(** ** The part of xarray the fetcher uses *)

Module xr.

Definition open_dataset (w : world) (url : string) (engine : option string)
  : M Dataset :=
  match remote w url engine with
  | inl e => (emit (XrOpen url engine false) ;;; raise e)%py
  | inr ds => (emit (XrOpen url engine true) ;;; ret ds)%py
  end.

(** [name in ds]. *)
Definition contains (ds : Dataset) (name : string) : bool :=
  bool_decide (name ∈ ds_variables ds).

Definition Qlt_bool (x y : Q) : bool := negb (Qle_bool y x).

Fixpoint count_while {A} (p : A -> bool) (l : list A) : nat :=
  match l with
  | [] => 0%nat
  | x :: t => if p x then S (count_while p t) else 0%nat
  end.

(** [index.searchsorted(v, side)], the place of [v] in a sorted array:
    pandas searches an increasing index, or the reverse of a decreasing
    one, and no other. *)
Definition searchsorted_left (index : list Q) (v : Q) : nat :=
  count_while (fun x => Qlt_bool x v) index.
Definition searchsorted_right (index : list Q) (v : Q) : nat :=
  count_while (fun x => Qle_bool x v) index.

(** The side of a slice bound. *)
Inductive side := Left | Right.

Definition side_name (s : side) : string :=
  match s with
  | Left => "left"
  | Right => "right"
  end.

Definition searchsorted (index : list Q) (v : Q) (s : side) : nat :=
  match s with
  | Left => searchsorted_left index v
  | Right => searchsorted_right index v
  end.

(** pandas' [is_monotonic_increasing] and [is_monotonic_decreasing]: equal
    neighbours are allowed. *)
Fixpoint is_monotonic_increasing (index : list Q) : bool :=
  match index with
  | x :: (y :: _) as t => Qle_bool x y && is_monotonic_increasing t
  | _ => true
  end.

Fixpoint is_monotonic_decreasing (index : list Q) : bool :=
  match index with
  | x :: (y :: _) as t => Qle_bool y x && is_monotonic_decreasing t
  | _ => true
  end.

(** [index._searchsorted_monotonic(label, side)]: on a decreasing index the
    search runs on the reversed index, from the other side, and the position
    is counted from the end; an index that is neither raises [ValueError]
    ([None] here). *)
Definition _searchsorted_monotonic (index : list Q) (label : Q) (s : side)
  : option nat :=
  if is_monotonic_increasing index then Some (searchsorted index label s)
  else if is_monotonic_decreasing index then
    Some (length index
          - searchsorted (rev index) label
              (match s with Left => Right | Right => Left end))%nat
  else None.

(** The positions at which the index holds [label]. *)
Fixpoint positions_from (i : nat) (index : list Q) (label : Q) : list nat :=
  match index with
  | [] => []
  | x :: t =>
      if Qeq_bool x label then i :: positions_from (S i) t label
      else positions_from (S i) t label
  end.
Definition positions (index : list Q) (label : Q) : list nat :=
  positions_from 0 index label.

(** [lib.maybe_booleans_to_slice] gives a slice when the positions are one
    run without a gap. *)
Fixpoint is_run (l : list nat) : bool :=
  match l with
  | a :: (b :: _) as t => Nat.eqb b (S a) && is_run t
  | _ => true
  end.

(** The two [KeyError]s of a slice bound: [str] of the first is the label,
    of the second the [repr] of its message. *)
Definition label_not_found (label : Z) : exn :=
  Exn "KeyError" (str_int label).
Definition non_unique_label (s : side) (label : Z) : exn :=
  Exn "KeyError"
      ("'Cannot get " +:+ side_name s +:+ " slice bound for non-unique label: "
       +:+ str_int label +:+ "'").

(** [index.get_slice_bound(label, side)].  A label the index holds gives its
    own position (one past it on the right), or the ends of its run when it
    is held more than once; scattered copies raise.  A label the index does
    not hold is placed by [_searchsorted_monotonic], and raises on an index
    that is not monotonic. *)
Definition get_slice_bound (index : list Q) (label : Z) (s : side)
  : exn + nat :=
  match positions index (inject_Z label) with
  | [] =>
      match _searchsorted_monotonic index (inject_Z label) s with
      | Some p => inr p
      | None => inl (label_not_found label)
      end
  | p :: ps =>
      if is_run (p :: ps) then
        inr (match s with
             | Left => p
             | Right => S (List.last ps p)
             end)
      else inl (non_unique_label s label)
  end.

(** [index.slice_indexer(start, stop)]: the positions [a, b) of the labels
    from [start] to [stop], the left bound first. *)
Definition slice_indexer (index : list Q) (start stop : Z)
  : exn + (nat * nat) :=
  match get_slice_bound index start Left with
  | inl e => inl e
  | inr a =>
      match get_slice_bound index stop Right with
      | inl e => inl e
      | inr b => inr (a, b)
      end
  end.

(** [l[a:b]]. *)
Definition isel {A} (l : list A) (ab : nat * nat) : list A :=
  take (snd ab - fst ab)%nat (drop (fst ab) l).

Fixpoint enumerate_from {A} (i : nat) (l : list A) : list (nat * A) :=
  match l with
  | [] => []
  | x :: t => (i, x) :: enumerate_from (S i) t
  end.
Definition enumerate {A} (l : list A) : list (nat * A) := enumerate_from 0 l.

(** [index.get_loc(key)]: the position of [key], no neighbour is taken. *)
Fixpoint get_loc (index : list Z) (key : Z) : option nat :=
  match index with
  | [] => None
  | x :: t => if x =? key then Some 0%nat else S <$> get_loc t key
  end.

(** The array [sel] builds once the time label is found at position [t] and
    the two label slices are turned into the positions [lat] and [lon]. *)
Definition selection (ds : Dataset) (time : Z) (t : nat) (lat lon : nat * nat)
  : LazyArray :=
  {| la_time := time;
     la_tpos := t;
     la_lat := isel (enumerate (ds_lat ds)) lat;
     la_lon := isel (enumerate (ds_lon ds)) lon;
     la_dims := ["lat"; "lon"] |}.

(** The [KeyError] of a label that is not in the index. *)
Definition missing_label : exn :=
  KeyError "not all values found in index 'time'. Try setting the `method` keyword argument (example: method='nearest').".

(** [ds["sst"].sel(time=t, lat=slice(..), lon=slice(..))]: the indexers are
    resolved in the order they are written; the time label is looked up
    exactly (no [method=]), the two slices are by label. *)
Definition sel (ds : Dataset) (time : Z) (lat lon : Z * Z) : M LazyArray :=
  match get_loc (ds_time ds) time with
  | None => raise missing_label
  | Some t =>
      match slice_indexer (ds_lat ds) (fst lat) (snd lat) with
      | inl e => raise e
      | inr a =>
          match slice_indexer (ds_lon ds) (fst lon) (snd lon) with
          | inl e => raise e
          | inr b => ret (selection ds time t a b)
          end
      end
  end.

Definition dim_size (a : LazyArray) (dim : string) : nat :=
  if String.eqb dim "lat" then length (la_lat a)
  else if String.eqb dim "lon" then length (la_lon a)
  else 1%nat.

(** [a.squeeze()]: the dimensions of length one are dropped. *)
Definition squeeze (a : LazyArray) : LazyArray :=
  {| la_time := la_time a;
     la_tpos := la_tpos a;
     la_lat := la_lat a;
     la_lon := la_lon a;
     la_dims := List.filter (fun d => negb (Nat.eqb (dim_size a d) 1)) (la_dims a) |}.

(** The values of a lazy array, read cell by cell from the handle. *)
Definition materialize (ds : Dataset) (a : LazyArray) : DataArray :=
  {| da_time := la_time a;
     da_lat := map snd (la_lat a);
     da_lon := map snd (la_lon a);
     da_dims := la_dims a;
     da_values :=
       map (fun i => map (fun j => ds_sst ds (la_tpos a) (fst i) (fst j))
                         (la_lon a))
           (la_lat a) |}.

(** [a.load()]: every selected cell is read from the remote handle. *)
Definition load (engine : option string) (ds : Dataset) (a : LazyArray)
  : M DataArray :=
  (emit (XrLoad engine) ;;;
   match ds_load_error ds with
   | Some e => raise e
   | None => ret (materialize ds a)
   end)%py.

(** [ds.close()]. *)
Definition close (engine : option string) (ds : Dataset) : M unit :=
  (emit (XrClose engine) ;;;
   match ds_close_error ds with
   | Some e => raise e
   | None => ret tt
   end)%py.

(** [a.isnull().all()]. *)
Definition isnull_all (a : DataArray) : bool :=
  forallb (forallb (fun c : cell => match c with None => true | Some _ => false end))
          (da_values a).

Definition ndim (a : DataArray) : nat := length (da_dims a).

End xr.

(** ** The fetcher: [load_sst_data] *)

Definition nl : string := String "010"%char EmptyString.

Definition data_url (selected_date : date) : string :=
  "https://psl.noaa.gov/thredds/dodsC/Datasets/noaa.oisst.v2.highres/sst.day.mean."
  +:+ str_int (year selected_date) +:+ ".nc".

Definition engines_to_try : list (option string) := [Some "pydap"; None].

Definition str_exn (e : option exn) : string :=
  match e with
  | Some e => exn_str e
  | None => "None"
  end.

Definition error_text (last_err : option exn) : string :=
  "데이터 로딩 실패 😢" +:+ nl +:+ nl
  +:+ "- 마지막 오류: " +:+ str_exn last_err +:+ nl
  +:+ "가능한 원인" +:+ nl
  +:+ "1) 인터넷/방화벽 문제" +:+ nl
  +:+ "2) NOAA 서버 지연/점검 중" +:+ nl
  +:+ "3) 선택 날짜 데이터가 아직 집계되지 않음(특히 최근 일자)" +:+ nl
  +:+ "→ 날짜를 1~3일 더 이전으로 바꿔보세요.".

Definition missing_variable : exn := KeyError "변수 'sst'를 찾을 수 없습니다.".

Definition asia_lat : Z * Z := (-10, 60).
Definition asia_lon : Z * Z := (60, 150).

(** The body of the [try] for one engine. *)
Definition attempt (w : world) (url : string) (selected_date : date)
    (eng : option string) : M DataArray :=
  (ds <- xr.open_dataset w url eng ;;
   if negb (xr.contains ds "sst")
   then raise missing_variable
   else
     asia_sst <- xr.sel ds (datetime64 selected_date) asia_lat asia_lon ;;
     let asia_sst := xr.squeeze asia_sst in
     data <- xr.load eng ds asia_sst ;;
     xr.close eng ds ;;;
     ret data)%py.

(** The [for eng in engines_to_try] loop: [inl data] when an iteration
    returned, [inr last_err] when the loop ran to its end. *)
Fixpoint for_engines (w : world) (url : string) (selected_date : date)
    (engines : list (option string)) (last_err : option exn)
  : M (DataArray + option exn) :=
  match engines with
  | [] => ret (inr last_err)
  | eng :: rest =>
      (r <- try_except
              (data <- attempt w url selected_date eng ;; ret (inl data))
              (fun e => ret (inr e)) ;;
       match r with
       | inl data => ret (inl data)
       | inr e => for_engines w url selected_date rest (Some e)
       end)%py
  end.

Definition load_sst_data (w : world) (selected_date : date)
  : M (option DataArray) :=
  (let url := data_url selected_date in
   emit (StInfo ("데이터 소스: `" +:+ url +:+ "`")) ;;;
   r <- for_engines w url selected_date engines_to_try None ;;
   match r with
   | inl data => ret (Some data)
   | inr last_err =>
       emit (StError (error_text last_err)) ;;;
       ret None
   end)%py.

(** ** The result cache: [@st.cache_data] *)

(** The events that are Streamlit elements. *)
Definition is_st_element (ev : event) : bool :=
  match ev with
  | XrOpen _ _ _ | XrLoad _ | XrClose _ | Render _ _ => false
  | _ => true
  end.

(** The events that are calls on the remote dataset. *)
Definition is_network (ev : event) : bool :=
  match ev with
  | XrOpen _ _ _ | XrLoad _ | XrClose _ => true
  | _ => false
  end.

(** [load_sst_data] under Streamlit's decorator: the cache is keyed by the
    argument; an entry keeps the value the function returned and the
    elements it showed.  On a hit the body does not run: the value is
    returned and the elements are shown again.  A call that raises leaves no
    entry. *)
Definition cached_load_sst_data
    (cache : gmap date (option DataArray * list event))
    (w : world) (selected_date : date)
  : M (option DataArray) * gmap date (option DataArray * list event) :=
  match cache !! selected_date with
  | Some (value, elements) => ((Return value, elements), cache)
  | None =>
      let m := load_sst_data w selected_date in
      match outcome m with
      | Return value =>
          (m, <[selected_date := (value, List.filter is_st_element (trace m))]> cache)
      | Raise _ => (m, cache)
      end
  end.

(** ** The part of Matplotlib the renderers use *)

Module mpl.

Definition mkTwoSlopeNorm (lo center hi : Q) : M TwoSlopeNorm :=
  if Qle_bool hi center || Qle_bool center lo
  then raise (ValueError "vmin, vcenter, and vmax must be in ascending order")
  else ret {| vmin := lo; vcenter := center; vmax := hi |}.

(** A normalised value: [np.interp(v, [vmin, vcenter, vmax], [0, 0.5, 1],
    left=-inf, right=inf)], masked where the data is NaN. *)
Inductive normed :=
| NegInf
| Fin (x : Q)
| PosInf
| Masked.

Definition norm_call (n : TwoSlopeNorm) (v : cell) : normed :=
  match v with
  | None => Masked
  | Some v =>
      if xr.Qlt_bool v (vmin n) then NegInf
      else if xr.Qlt_bool (vmax n) v then PosInf
      else if xr.Qlt_bool v (vcenter n)
      then Fin (((1#2) - 0) / (vcenter n - vmin n) * (v - vmin n) + 0)
      else Fin ((1 - (1#2)) / (vmax n - vcenter n) * (v - vcenter n) + (1#2))
  end.

(** The colours of a colormap with [N] entries: entry 0 is the low end of
    the palette and entry [N - 1] its high end. *)
Inductive color :=
| Entry (i : Z)
| Transparent.

(** [Colormap.__call__]: a value in [0, 1] picks the entry [floor (x * N)],
    with 1 on the last entry; what falls under or over takes the under and
    over colours, which are the first and the last entry unless set
    otherwise; masked data takes the bad colour. *)
Definition cmap_call (N : Z) (x : normed) : color :=
  match x with
  | Masked => Transparent
  | NegInf => Entry 0
  | PosInf => Entry (N - 1)
  | Fin x =>
      let xa := (x * inject_Z N)%Q in
      if Qeq_bool xa (inject_Z N) then Entry (N - 1)
      else if xr.Qlt_bool xa 0 then Entry 0
      else if Qle_bool (inject_Z N) xa then Entry (N - 1)
      else Entry (Qfloor xa)
  end.

(** [rcParams["image.lut"]]. *)
Definition image_lut : Z := 256.

Fixpoint Qmin_list (l : list Q) : option Q :=
  match l with
  | [] => None
  | x :: t =>
      match Qmin_list t with
      | None => Some x
      | Some m => Some (if Qle_bool x m then x else m)
      end
  end.

Fixpoint Qmax_list (l : list Q) : option Q :=
  match l with
  | [] => None
  | x :: t =>
      match Qmax_list t with
      | None => Some x
      | Some m => Some (if Qle_bool m x then x else m)
      end
  end.

(** [a.min()] and [a.max()] of a NumPy array. *)
Definition np_min (l : list Q) : M Q :=
  match Qmin_list l with
  | Some m => ret m
  | None =>
      raise (ValueError "zero-size array to reduction operation minimum which has no identity")
  end.

Definition np_max (l : list Q) : M Q :=
  match Qmax_list l with
  | Some m => ret m
  | None =>
      raise (ValueError "zero-size array to reduction operation maximum which has no identity")
  end.

(** [mtransforms.nonsingular(vmin, vmax, expander)], with the default
    [tiny=1e-15] and [increasing=True]: limits that are both next to zero,
    or closer to each other than [tiny] of their size, are moved apart. *)
Definition tiny : Q := 1 # 1000000000000000.
Definition float_tiny : Q := 1 # (2 ^ 1022).

(** [max(abs(a), abs(b))]. *)
Definition maxabs (a b : Q) : Q :=
  if Qle_bool (Qabs a) (Qabs b) then Qabs b else Qabs a.

Definition nonsingular (v0 v1 expander : Q) : Q * Q :=
  let swapped := xr.Qlt_bool v1 v0 in
  let lo := if swapped then v1 else v0 in
  let hi := if swapped then v0 else v1 in
  let maxabsvalue := maxabs lo hi in
  if xr.Qlt_bool maxabsvalue (inject_Z 1000000 / tiny * float_tiny)%Q
  then ((- expander)%Q, expander)
  else if Qle_bool (hi - lo)%Q (maxabsvalue * tiny)%Q then
    if Qeq_bool hi 0 && Qeq_bool lo 0 then ((- expander)%Q, expander)
    else ((lo - expander * Qabs lo)%Q, (hi + expander * Qabs hi)%Q)
  else (lo, hi).

(** [ax.set_xlim(v0, v1)] and [ax.set_ylim(v0, v1)] on a linear axis: the
    limits the axis ends up with.  They go through the locator's
    [nonsingular], whose expander is 0.05, and keep the order they were
    given in. *)
Definition set_lim (v0 v1 : Q) : Q * Q :=
  let reverse := xr.Qlt_bool v1 v0 in
  let (a, b) := nonsingular v0 v1 (5 # 100) in
  if reverse then (b, a) else (a, b).

(** [pcolormesh] draws a two-dimensional array and refuses any other. *)
Definition pcolormesh (data : DataArray) : M DataArray :=
  if Nat.eqb (xr.ndim data) 2 then ret data
  else raise (ValueError "not enough values to unpack (expected 2, got fewer)").

(** The colour a figure gives to a cell. *)
Definition fig_color (fig : Figure) (v : cell) : color :=
  cmap_call image_lut (norm_call (fig_norm fig) v).

End mpl.

(** ** The renderers *)

(** How the installed Cartopy answers the two ways of asking for labelled
    gridlines, and the assignment of the older label attributes. *)
Record cartopy_api := {
  gridlines_with_crs : option exn;
  gridlines_plain : option exn;
  legacy_label_attrs : option exn
}.

Definition maybe_raise (e : option exn) : M unit :=
  match e with
  | Some e => raise e
  | None => ret tt
  end.

Definition gridline_labels (api : cartopy_api) : M (list string) :=
  try_except
    (maybe_raise (gridlines_with_crs api) ;;; ret ["bottom"; "left"])%py
    (fun _ =>
       (maybe_raise (gridlines_plain api) ;;;
        try_except
          (maybe_raise (legacy_label_attrs api) ;;; ret ["bottom"; "left"])
          (fun _ => ret ["bottom"; "left"; "top"; "right"]))%py).

Definition create_map_with_cartopy (api : cartopy_api) (sst_data : DataArray)
    (selected_date : date) : M Figure :=
  (labels <- gridline_labels api ;;
   norm <- mpl.mkTwoSlopeNorm (inject_Z 20) (inject_Z 30) (inject_Z 34) ;;
   let cmap := "YlOrRd" in
   mesh <- mpl.pcolormesh sst_data ;;
   ret {| fig_size := (10, 9);
          fig_projection := Some "PlateCarree";
          fig_features := [("LAND", 1); ("COASTLINE", 1)];
          fig_extent := Some (60, 150, -10, 60);
          fig_gridline_labels := Some labels;
          fig_norm := norm;
          fig_cmap := cmap;
          fig_mesh := mesh;
          fig_colorbar_label := "해수면 온도 (°C)";
          fig_xlabel := None;
          fig_ylabel := None;
          fig_title := "해수면 온도: " +:+ strftime_kr selected_date;
          fig_xlim := None;
          fig_ylim := None;
          fig_grid := None |})%py.

Definition create_simple_latlon_plot (sst_data : DataArray)
    (selected_date : date) : M Figure :=
  (norm <- mpl.mkTwoSlopeNorm (inject_Z 20) (inject_Z 30) (inject_Z 34) ;;
   let cmap := "YlOrRd" in
   let lon := da_lon sst_data in
   let lat := da_lat sst_data in
   mesh <- mpl.pcolormesh sst_data ;;
   lon_min <- mpl.np_min lon ;;
   lon_max <- mpl.np_max lon ;;
   lat_min <- mpl.np_min lat ;;
   lat_max <- mpl.np_max lat ;;
   ret {| fig_size := (10, 8);
          fig_projection := None;
          fig_features := [];
          fig_extent := None;
          fig_gridline_labels := None;
          fig_norm := norm;
          fig_cmap := cmap;
          fig_mesh := mesh;
          fig_colorbar_label := "해수면 온도 (°C)";
          fig_xlabel := Some "경도";
          fig_ylabel := Some "위도";
          fig_title := "(Cartopy 미사용) 해수면 온도: " +:+ strftime_kr selected_date;
          fig_xlim := Some (mpl.set_lim lon_min lon_max);
          fig_ylim := Some (mpl.set_lim lat_min lat_max);
          fig_grid := Some ("--", 4 # 10) |})%py.

(** ** The page: [main] *)

Record rcParams := {
  font_family : string;
  font_sans_serif : list string;
  axes_unicode_minus : bool
}.

(** Where the script runs: the day, whether Cartopy could be imported and
    how it answers, the font file, what drawing a figure raises (the figure
    is drawn when it is shown; a font or a map feature may fail then), and
    the network. *)
Record env := {
  today : date;
  HAS_CARTOPY : bool;
  cartopy : cartopy_api;
  font_file_exists : bool;
  addfont_error : option exn;
  draw_error : Figure -> option exn;
  net : world
}.

Definition setup_korean_font (e : env) : M rcParams :=
  if font_file_exists e then
    try_except
      (maybe_raise (addfont_error e) ;;;
       ret {| font_family := "Pretendard";
              font_sans_serif := [];
              axes_unicode_minus := false |})%py
      (fun _ =>
         ret {| font_family := "sans-serif";
                font_sans_serif :=
                  ["Pretendard"; "Malgun Gothic"; "Apple SD Gothic Neo"; "DejaVu Sans"];
                axes_unicode_minus := false |})
  else
    (emit (StWarning "⚠️ `fonts/Pretendard-Bold.ttf`가 없어 기본 폰트를 사용합니다. (한글이 약간 달라 보일 수 있어요)") ;;;
     ret {| font_family := "sans-serif";
            font_sans_serif := ["Malgun Gothic"; "Apple SD Gothic Neo"; "DejaVu Sans"];
            axes_unicode_minus := false |})%py.

(** [today - timedelta(days=k)]. *)
Definition minus_days (d : date) (k : Z) : M date :=
  match sub_days d k with
  | Some r => ret r
  | None => raise (Exn "OverflowError" "date value out of range")
  end.

Definition min_date : date := mkdate 1981 9 1.

Definition in_range (lo hi d : date) : bool := date_leb lo d && date_leb d hi.

(** [st.sidebar.date_input]: the default must lie within the bounds, and
    the picker offers only dates within them; [pick] is what the user chose,
    if anything. *)
Definition date_input (value min_value max_value : date) (pick : option date)
  : M date :=
  if in_range min_value max_value value then
    match pick with
    | Some d => if in_range min_value max_value d then ret d else ret value
    | None => ret value
    end
  else raise (Exn "StreamlitAPIException" "The default `value` must lie between the `min_value` and the `max_value`, inclusively.").

Definition notice : string :=
  "선택한 날짜의 데이터가 없거나 로딩에 실패했습니다. 다른 날짜를 선택해 주세요.".

(** [st.pyplot(fig, clear_figure=True)]: the figure is drawn and shown. *)
Definition st_pyplot (e : env) (fig : Figure) : M unit :=
  (maybe_raise (draw_error e fig) ;;; emit (StPyplot fig))%py.

(** The caption of the preview: the four extrema, each printed with two
    decimals. *)
Definition caption_text (lat_min lat_max lon_min lon_max : Q) : string :=
  "위도 " +:+ format_2f lat_min +:+ " ~ " +:+ format_2f lat_max +:+ ", "
  +:+ "경도 " +:+ format_2f lon_min +:+ " ~ " +:+ format_2f lon_max.

(** Lines 187 to 205: what the page does with the outcome of the fetch. *)
Definition show (e : env) (selected_date : date) (sst_data : option DataArray)
  : M unit :=
  match sst_data with
  | Some data =>
      if negb (xr.isnull_all data) then
        (emit (StSubheader ("🗺️ " +:+ strftime_kr selected_date +:+ " 시각화")) ;;;
         fig <- (if HAS_CARTOPY e then
                   emit (Render Cartopy data) ;;;
                   create_map_with_cartopy (cartopy e) data selected_date
                 else
                   emit (StInfo "ℹ️ Cartopy가 없어 평면(lat/lon) 시각화로 표시합니다. (지도 경계선 없이 값 분포만 표시)") ;;;
                   emit (Render Plain data) ;;;
                   create_simple_latlon_plot data selected_date) ;;
         st_pyplot e fig ;;;
         lat_min <- mpl.np_min (da_lat data) ;;
         lat_max <- mpl.np_max (da_lat data) ;;
         lon_min <- mpl.np_min (da_lon data) ;;
         lon_max <- mpl.np_max (da_lon data) ;;
         emit (StCaption (caption_text lat_min lat_max lon_min lon_max)) ;;;
         emit (StWrite data))%py
      else emit (StInfo notice)
  | None => emit (StInfo notice)
  end.

(** Lines 164 to 182: the page header and the date picker. *)
Definition pick_date (e : env) (pick : option date) : M date :=
  (setup_korean_font e ;;;
   emit (StTitle "🌏 아시아 해수면 온도(SST) 대시보드") ;;;
   emit (StMarkdown "NOAA OISST v2 고해상도 데이터를 사용하여 아시아 전역의 **일별 해수면 온도**를 시각화합니다.") ;;;
   emit (StSidebarHeader "🗓️ 날짜 선택") ;;;
   default_date <- minus_days (today e) 3 ;;
   max_date <- minus_days (today e) 2 ;;
   date_input default_date min_date max_date pick)%py.

(** One run of the script, threading the cache.  The picker yields a date,
    and a date is truthy, so the test [if selected_date] always passes. *)
Definition main (e : env) (cache : gmap date (option DataArray * list event))
    (pick : option date)
  : M unit * gmap date (option DataArray * list event) :=
  match pick_date e pick with
  | (Raise ex, t) => ((Raise ex, t), cache)
  | (Return selected_date, t) =>
      let (fetch, cache') := cached_load_sst_data cache (net e) selected_date in
      (((Return tt, t) ;;; sst_data <- fetch ;; show e selected_date sst_data)%py,
       cache')
  end.

(** A session: the script runs once per interaction, the cache lives on. *)
Fixpoint session (cache : gmap date (option DataArray * list event))
    (runs : list (env * option date)) : list (M unit) :=
  match runs with
  | [] => []
  | (e, pick) :: rest =>
      let (m, cache') := main e cache pick in
      m :: session cache' rest
  end.

(** ** Reading the fetcher *)

Definition source_info (selected_date : date) : event :=
  StInfo ("데이터 소스: `" +:+ data_url selected_date +:+ "`").

(** The error of the label slices of an attempt, when pandas refuses one:
    the latitudes are sliced first. *)
Definition slice_error (ds : Dataset) : option exn :=
  match xr.slice_indexer (ds_lat ds) (fst asia_lat) (snd asia_lat) with
  | inl e => Some e
  | inr _ =>
      match xr.slice_indexer (ds_lon ds) (fst asia_lon) (snd asia_lon) with
      | inl e => Some e
      | inr _ => None
      end
  end.

(** The positions a label slice selects on an axis; none where pandas
    refuses the slice. *)
Definition box_slice (index : list Q) (bounds : Z * Z) : nat * nat :=
  match xr.slice_indexer index (fst bounds) (snd bounds) with
  | inl _ => (0%nat, 0%nat)
  | inr ab => ab
  end.

(** The grid an attempt returns when the time label sits at position [t]. *)
Definition asia_grid (ds : Dataset) (d : date) (t : nat) : DataArray :=
  xr.materialize ds
    (xr.squeeze (xr.selection ds (datetime64 d) t
                   (box_slice (ds_lat ds) asia_lat)
                   (box_slice (ds_lon ds) asia_lon))).

(** The two attempts of a fetch. *)
Definition first_attempt (w : world) (d : date) : M DataArray :=
  attempt w (data_url d) d (Some "pydap").
Definition second_attempt (w : world) (d : date) : M DataArray :=
  attempt w (data_url d) d None.

(** An attempt opened the archive and raised afterwards. *)
Definition raises_after_open (w : world) (d : date) (eng : option string)
  : Prop :=
  exists ds e, remote w (data_url d) eng = inr ds /\
               outcome (attempt w (data_url d) d eng) = Raise e.

(** The text [msg] appears in [s]. *)
Definition contains_text (s msg : string) : Prop :=
  exists pre post, s = pre +:+ msg +:+ post.

(** ** Reading a trace *)

(** The engines of the open calls, in the order they were issued. *)
Fixpoint opens (t : list event) : list (option string) :=
  match t with
  | [] => []
  | XrOpen _ eng _ :: t => eng :: opens t
  | _ :: t => opens t
  end.

Definition engine_eqb (a b : option string) : bool :=
  match a, b with
  | Some x, Some y => String.eqb x y
  | None, None => true
  | _, _ => false
  end.

(** The handles that were opened and not closed since, given the ones open
    before. *)
Fixpoint open_handles (held : list (option string)) (t : list event)
  : list (option string) :=
  match t with
  | [] => held
  | XrOpen _ eng true :: t => open_handles (held ++ [eng]) t
  | XrClose eng :: t =>
      open_handles (List.filter (fun h => negb (engine_eqb h eng)) held) t
  | _ :: t => open_handles held t
  end.


(** A grid whose array of values has the shape its axes announce. *)
Definition wf_grid (g : DataArray) : Prop :=
  length (da_values g) = length (da_lat g) /\
  Forall (fun row => length row = length (da_lon g)) (da_values g).

(** Some cell is a number. *)
Definition has_value (g : DataArray) : Prop :=
  exists row v, In row (da_values g) /\ In (Some v) row.

(** The integers [start], [start + 1], ... ([n] of them). *)
Fixpoint zrange (start : Z) (n : nat) : list Z :=
  match n with
  | O => []
  | S k => start :: zrange (start + 1) k
  end.

(** The scale both renderers build. *)
Definition sst_norm : TwoSlopeNorm :=
  {| vmin := inject_Z 20; vcenter := inject_Z 30; vmax := inject_Z 34 |}.

(** The least and the greatest element of an array. *)
Definition is_minimum (m : Q) (l : list Q) : Prop :=
  In m l /\ Forall (fun x => (m <= x)%Q) l.
Definition is_maximum (m : Q) (l : list Q) : Prop :=
  In m l /\ Forall (fun x => (x <= m)%Q) l.

(** Two limits far enough from each other, and not both next to zero: the
    lower one is under the upper one by more than [1e-15] of the larger of
    their sizes. *)
Definition apart (lo hi : Q) : Prop :=
  (inject_Z 1000000 / mpl.tiny * mpl.float_tiny <= mpl.maxabs lo hi)%Q /\
  (mpl.maxabs lo hi * mpl.tiny < hi - lo)%Q.




(** ** Reading the cache *)

(** A run of fetches through the cache, each against the network as it is
    at that moment; the cache that results. *)
Fixpoint fetch_all (cache : gmap date (option DataArray * list event))
    (calls : list (world * date)) : gmap date (option DataArray * list event) :=
  match calls with
  | [] => cache
  | (w, d) :: rest => fetch_all (snd (cached_load_sst_data cache w d)) rest
  end.

(** What holds of every entry the cache ever gets: the elements it replays
    are Streamlit elements, and a cached grid has the shape of its axes. *)
Definition cache_ok (cache : gmap date (option DataArray * list event)) : Prop :=
  forall d v els,
    cache !! d = Some (v, els) ->
    forallb is_st_element els = true /\
    (forall g, v = Some g -> wf_grid g).

(** ** Sample environments *)

Module Sample.

Definition d20230715 : date := mkdate 2023 7 15.
Definition d20231102 : date := mkdate 2023 11 2.

Definition temperature (t i j : nat) : cell :=
  if Nat.eqb j 2 then None
  else Some (inject_Z (Z.of_nat (20 + t + i + j))).

Definition oisst : Dataset :=
  {| ds_variables := ["time"; "lat"; "lon"; "sst"];
     ds_time := [datetime64 (mkdate 2023 7 14); datetime64 d20230715;
                 datetime64 (mkdate 2023 7 16)];
     ds_lat := [-81 # 8; -10 # 1; 1 # 8; 30 # 1; 479 # 8; 60 # 1; 481 # 8];
     ds_lon := [479 # 8; 60 # 1; 481 # 8; 100 # 1; 150 # 1; 1201 # 8];
     ds_sst := temperature;
     ds_load_error := None;
     ds_close_error := None |}.

Definition no_sst : Dataset :=
  {| ds_variables := ["time"; "lat"; "lon"];
     ds_time := ds_time oisst;
     ds_lat := ds_lat oisst;
     ds_lon := ds_lon oisst;
     ds_sst := temperature;
     ds_load_error := None;
     ds_close_error := None |}.

Definition broken_read : Dataset :=
  {| ds_variables := ds_variables oisst;
     ds_time := ds_time oisst;
     ds_lat := ds_lat oisst;
     ds_lon := ds_lon oisst;
     ds_sst := temperature;
     ds_load_error := Some (Exn "RuntimeError" "NetCDF: Access failure");
     ds_close_error := None |}.

Definition timeout : exn := Exn "OSError" "[Errno -68] NetCDF: I/O failure".
Definition refused : exn := Exn "ConnectionError" "Connection refused".

(** Both engines reach the archive. *)
Definition online : world := {| remote := fun _ _ => inr oisst |}.

(** Nothing is reachable. *)
Definition offline : world :=
  {| remote := fun _ eng =>
       match eng with Some _ => inl refused | None => inl timeout end |}.

(** The bridge engine fails to connect, the default engine works. *)
Definition pydap_down : world :=
  {| remote := fun _ eng =>
       match eng with Some _ => inl refused | None => inr oisst end |}.

(** The bridge engine opens the archive but does not see the variable; the
    default engine works. *)
Definition pydap_no_sst : world :=
  {| remote := fun _ eng =>
       match eng with Some _ => inr no_sst | None => inr oisst end |}.

(** Both engines open the archive, neither sees the variable. *)
Definition nowhere_sst : world := {| remote := fun _ _ => inr no_sst |}.

(** The bridge engine opens the archive and fails while reading. *)
Definition pydap_broken_read : world :=
  {| remote := fun _ eng =>
       match eng with Some _ => inr broken_read | None => inr oisst end |}.

Definition modern_cartopy : cartopy_api :=
  {| gridlines_with_crs := None; gridlines_plain := None;
     legacy_label_attrs := None |}.

(** The grid of 2023-07-15 over the Asia box. *)
Definition grid : DataArray := asia_grid oisst d20230715 1.

Definition no_cartopy (w : world) : env :=
  {| today := mkdate 2023 11 4;
     HAS_CARTOPY := false;
     cartopy := {| gridlines_with_crs := None; gridlines_plain := None;
                   legacy_label_attrs := None |};
     font_file_exists := true;
     addfont_error := None;
     draw_error := fun _ => None;
     net := w |}.

End Sample.

(** ** Reading a session of fetches *)

(** Everything the fetches of a session show and issue, in order. *)
Fixpoint fetch_log (cache : gmap date (option DataArray * list event))
    (calls : list (world * date)) : list event :=
  match calls with
  | [] => []
  | (w, d) :: rest =>
      trace (fst (cached_load_sst_data cache w d))
      ++ fetch_log (snd (cached_load_sst_data cache w d)) rest
  end.

(** An attempt through [eng] opens the archive and raises before it reaches
    [ds.close()]: the variable is missing, the date is not on the time axis,
    a label slice is refused, or the read fails. *)
Definition raises_before_close (w : world) (d : date) (eng : option string)
  : bool :=
  match remote w (data_url d) eng with
  | inl _ => false
  | inr ds =>
      negb (xr.contains ds "sst")
      || match xr.get_loc (ds_time ds) (datetime64 d) with
         | None => true
         | Some _ =>
             match slice_error ds, ds_load_error ds with
             | None, None => false
             | _, _ => true
             end
         end
  end.

(** The palette entry of a colour, when it is one. *)
Definition entry_index (c : mpl.color) : option Z :=
  match c with
  | mpl.Entry i => Some i
  | mpl.Transparent => None
  end.

(** The colour both renderers give to a cell. *)
Definition sst_color (v : cell) : mpl.color :=
  mpl.cmap_call mpl.image_lut (mpl.norm_call sst_norm v).


(** The elements of the page header. *)
Definition is_header_element (ev : event) : bool :=
  match ev with
  | StWarning _ | StTitle _ | StMarkdown _ | StSidebarHeader _ => true
  | _ => false
  end.

(** What a fetch can put on its trace: calls on the remote dataset, the
    source line and the error message. *)
Definition is_fetch_event (ev : event) : bool :=
  match ev with
  | XrOpen _ _ _ | XrLoad _ | XrClose _ | StInfo _ | StError _ => true
  | _ => false
  end.

(** What the page has shown and called by the time the renderer is done. *)
Definition rendering_elements (e : env) (selected_date : date)
    (data : DataArray) : list event :=
  [StSubheader ("🗺️ " +:+ strftime_kr selected_date +:+ " 시각화")]
  ++ (if HAS_CARTOPY e then [Render Cartopy data]
      else [StInfo "ℹ️ Cartopy가 없어 평면(lat/lon) 시각화로 표시합니다. (지도 경계선 없이 값 분포만 표시)";
            Render Plain data]).

(** The elements the page shows around a figure. *)
Definition figure_elements (e : env) (selected_date : date) (data : DataArray)
    (fig : Figure) (caption : string) : list event :=
  rendering_elements e selected_date data
  ++ [StPyplot fig; StCaption caption; StWrite data].

(** Where a temperature falls on the scale, from 0 at its low end to 1 at
    its high end: the normalised value, with what lies under or over the
    scale put at the ends. *)
Definition sst_level (v : Q) : Q :=
  match mpl.norm_call sst_norm (Some v) with
  | mpl.Fin x => x
  | mpl.PosInf => 1
  | _ => 0
  end.

(** The renderer the page calls. *)
Definition render (e : env) (data : DataArray) (selected_date : date)
  : M Figure :=
  if HAS_CARTOPY e then create_map_with_cartopy (cartopy e) data selected_date
  else create_simple_latlon_plot data selected_date.

(** Every entry of the cache was written by a fetch of its date: it holds
    what that fetch returned and the elements it showed. *)
Definition cache_sound (cache : gmap date (option DataArray * list event))
  : Prop :=
  forall d v els,
    cache !! d = Some (v, els) ->
    exists w, outcome (load_sst_data w d) = Return v /\
              els = List.filter is_st_element (trace (load_sst_data w d)).

(** ** Sample environments at the edges *)

Module Edge.

(** An archive whose latitudes all lie north of the box. *)
Definition arctic : Dataset :=
  {| ds_variables := ["sst"];
     ds_time := [datetime64 Sample.d20230715];
     ds_lat := [70 # 1; 80 # 1];
     ds_lon := ds_lon Sample.oisst;
     ds_sst := Sample.temperature;
     ds_load_error := None;
     ds_close_error := None |}.

(** An archive with a single latitude in the box. *)
Definition one_row : Dataset :=
  {| ds_variables := ["sst"];
     ds_time := [datetime64 Sample.d20230715];
     ds_lat := [-20 # 1; 10 # 1; 70 # 1];
     ds_lon := ds_lon Sample.oisst;
     ds_sst := Sample.temperature;
     ds_load_error := None;
     ds_close_error := None |}.

(** An archive that stores its latitudes from north to south, all of them
    in the box. *)
Definition southward : Dataset :=
  {| ds_variables := ["sst"];
     ds_time := [datetime64 Sample.d20230715];
     ds_lat := [50 # 1; 30 # 1; 10 # 1];
     ds_lon := ds_lon Sample.oisst;
     ds_sst := Sample.temperature;
     ds_load_error := None;
     ds_close_error := None |}.

(** An archive whose latitudes are in no order and hold neither bound. *)
Definition shuffled : Dataset :=
  {| ds_variables := ["sst"];
     ds_time := [datetime64 Sample.d20230715];
     ds_lat := [30 # 1; -20 # 1; 10 # 1];
     ds_lon := ds_lon Sample.oisst;
     ds_sst := Sample.temperature;
     ds_load_error := None;
     ds_close_error := None |}.


Definition north : world := {| remote := fun _ _ => inr arctic |}.
Definition thin : world := {| remote := fun _ _ => inr one_row |}.
Definition north_first : world := {| remote := fun _ _ => inr southward |}.
Definition unordered : world := {| remote := fun _ _ => inr shuffled |}.

Definition empty_grid : DataArray := asia_grid arctic Sample.d20230715 0.
Definition row_grid : DataArray := asia_grid one_row Sample.d20230715 0.
Definition southward_grid : DataArray := asia_grid southward Sample.d20230715 0.

(** Cartopy of an older release: the first gridlines call is refused. *)
Definition old_cartopy : cartopy_api :=
  {| gridlines_with_crs := Some (Exn "TypeError" "Cannot label gridlines on this projection");
     gridlines_plain := None;
     legacy_label_attrs := None |}.

Definition with_cartopy (api : cartopy_api) (w : world) : env :=
  {| today := mkdate 2023 11 4;
     HAS_CARTOPY := true;
     cartopy := api;
     font_file_exists := false;
     addfont_error := None;
     draw_error := fun _ => None;
     net := w |}.

(** Cartopy is installed, but the map features cannot be fetched when the
    figure is drawn. *)
Definition no_map_data : exn :=
  Exn "URLError" "<urlopen error [Errno -3] Temporary failure in name resolution>".

Definition without_map_data (w : world) : env :=
  {| today := mkdate 2023 11 4;
     HAS_CARTOPY := true;
     cartopy := Sample.modern_cartopy;
     font_file_exists := false;
     addfont_error := None;
     draw_error := fun _ => Some no_map_data;
     net := w |}.

End Edge.

(** ** Reading the calendar *)

(** The month and the day of the [n]-th day of a year (counted from 0), as
    [_ord2ymd] finds them. *)
Definition month_day (n : Z) (leapyear : bool) : Z * Z :=
  let m := Z.shiftr (n + 50) 5 in
  let preceding :=
    Py._DAYS_BEFORE_MONTH m + (if (2 <? m) && leapyear then 1 else 0) in
  if n <? preceding then
    let m := m - 1 in
    let preceding :=
      preceding
      - (Py._DAYS_IN_MONTH m + (if (m =? 2) && leapyear then 1 else 0)) in
    (m, n - preceding + 1)
  else (m, n - preceding + 1).

Definition month_day_ok (leapyear : bool) (n : Z) : bool :=
  let md := month_day n leapyear in
  (1 <=? fst md) && (fst md <=? 12) && (1 <=? snd md)
  && (snd md <=? Py._DAYS_IN_MONTH (fst md)
                 + (if (fst md =? 2) && leapyear then 1 else 0))
  && (Py._DAYS_BEFORE_MONTH (fst md)
      + (if (2 <? fst md) && leapyear then 1 else 0) + snd md =? n + 1).

(** The first day on which the page header goes through. *)
Definition first_day : date := mkdate 1981 9 4.

(** Membership in a list that is spelled out: one case per element, the
    impossible ones closed. *)
Ltac in_cases H :=
  repeat (destruct H as [H|H]; [try discriminate H|]); try contradiction.

(** The twelve months, one by one. *)
Ltac month_cases m :=
  let H := fresh in
  assert (H : m = 1 \/ m = 2 \/ m = 3 \/ m = 4 \/ m = 5 \/ m = 6 \/ m = 7
              \/ m = 8 \/ m = 9 \/ m = 10 \/ m = 11 \/ m = 12) by lia;
  repeat (destruct H as [H|H]; [subst m|]); [..|subst m].

(** * Properties *)

(** ** The fetcher, attempt by attempt *)

(** The two iterations of the loop, spelled out. *)
Lemma load_sst_data_unfold (w : world) (d : date) :
  load_sst_data w d =
  match attempt w (data_url d) d (Some "pydap") with
  | (Return g, t1) => (Return (Some g), source_info d :: t1)
  | (Raise e1, t1) =>
      match attempt w (data_url d) d None with
      | (Return g, t2) => (Return (Some g), source_info d :: t1 ++ t2)
      | (Raise e2, t2) =>
          (Return None,
           source_info d :: t1 ++ t2 ++ [StError (error_text (Some e2))])
      end
  end.
Proof.
  unfold load_sst_data, engines_to_try, source_info. cbn [for_engines].
  destruct (attempt w (data_url d) d (Some "pydap")) as [[g1|e1] t1]; cbn.
  - rewrite !app_nil_r. reflexivity.
  - destruct (attempt w (data_url d) d None) as [[g2|e2] t2]; cbn.
    + rewrite !app_nil_r. reflexivity.
    + rewrite !app_nil_r, <- !app_assoc. reflexivity.
Qed.

(** One attempt, step by step: what it returns or raises, and the calls it
    has issued by then. *)
Lemma attempt_unfold (w : world) (url : string) (d : date) (eng : option string) :
  attempt w url d eng =
  match remote w url eng with
  | inl e => (Raise e, [XrOpen url eng false])
  | inr ds =>
      if xr.contains ds "sst" then
        match xr.get_loc (ds_time ds) (datetime64 d) with
        | None => (Raise xr.missing_label, [XrOpen url eng true])
        | Some t =>
            match slice_error ds with
            | Some e => (Raise e, [XrOpen url eng true])
            | None =>
                match ds_load_error ds with
                | Some e => (Raise e, [XrOpen url eng true; XrLoad eng])
                | None =>
                    match ds_close_error ds with
                    | Some e =>
                        (Raise e, [XrOpen url eng true; XrLoad eng; XrClose eng])
                    | None =>
                        (Return (asia_grid ds d t),
                         [XrOpen url eng true; XrLoad eng; XrClose eng])
                    end
                end
            end
        end
      else (Raise missing_variable, [XrOpen url eng true])
  end.
Proof.
  unfold attempt, xr.open_dataset, xr.sel, xr.load, xr.close, asia_grid,
    slice_error, box_slice, asia_lat, asia_lon.
  cbn [fst snd].
  destruct (remote w url eng) as [e|ds]; cbn; [reflexivity|].
  destruct (xr.contains ds "sst"); cbn; [|reflexivity].
  destruct (xr.get_loc (ds_time ds) (datetime64 d)) as [t|]; cbn; [|reflexivity].
  destruct (xr.slice_indexer (ds_lat ds) (-10) 60) as [e|a]; cbn; [reflexivity|].
  destruct (xr.slice_indexer (ds_lon ds) 60 150) as [e|b]; cbn; [reflexivity|].
  destruct (ds_load_error ds); cbn; [reflexivity|].
  destruct (ds_close_error ds); cbn; reflexivity.
Qed.

Lemma opens_app (a b : list event) : opens (a ++ b) = opens a ++ opens b.
Proof.
  induction a as [|ev a IH]; [reflexivity|].
  destruct ev; cbn; rewrite ?IH; reflexivity.
Qed.

(** An attempt issues exactly one open call, through its engine. *)
Lemma attempt_opens (w : world) (url : string) (d : date) (eng : option string) :
  opens (trace (attempt w url d eng)) = [eng].
Proof.
  rewrite attempt_unfold.
  destruct (remote w url eng) as [e|ds]; [reflexivity|].
  destruct (xr.contains ds "sst"); [|reflexivity].
  destruct (xr.get_loc (ds_time ds) (datetime64 d)); [|reflexivity].
  destruct (slice_error ds); [reflexivity|].
  destruct (ds_load_error ds); [reflexivity|].
  destruct (ds_close_error ds); reflexivity.
Qed.

(** An attempt shows nothing on the page. *)
Lemma attempt_no_element (w : world) (url : string) (d : date) (eng : option string) :
  List.filter is_st_element (trace (attempt w url d eng)) = [].
Proof.
  rewrite attempt_unfold.
  destruct (remote w url eng) as [e|ds]; [reflexivity|].
  destruct (xr.contains ds "sst"); [|reflexivity].
  destruct (xr.get_loc (ds_time ds) (datetime64 d)); [|reflexivity].
  destruct (slice_error ds); [reflexivity|].
  destruct (ds_load_error ds); [reflexivity|].
  destruct (ds_close_error ds); reflexivity.
Qed.

(** The message of a failed fetch quotes the error it is given. *)
Lemma error_text_quotes (e : exn) :
  contains_text (error_text (Some e)) (exn_str e).
Proof.
  unfold contains_text, error_text, str_exn.
  exists ("데이터 로딩 실패 😢" +:+ nl +:+ nl +:+ "- 마지막 오류: ").
  eexists. cbn. reflexivity.
Qed.

(** The outcome of a fetch in terms of its two attempts. *)
Lemma load_sst_data_cases (w : world) (d : date) :
  (exists g, outcome (first_attempt w d) = Return g /\
     load_sst_data w d =
     (Return (Some g), source_info d :: trace (first_attempt w d))) \/
  (exists e1 g, outcome (first_attempt w d) = Raise e1 /\
     outcome (second_attempt w d) = Return g /\
     load_sst_data w d =
     (Return (Some g),
      source_info d :: trace (first_attempt w d) ++ trace (second_attempt w d))) \/
  (exists e1 e2, outcome (first_attempt w d) = Raise e1 /\
     outcome (second_attempt w d) = Raise e2 /\
     load_sst_data w d =
     (Return None,
      source_info d :: trace (first_attempt w d) ++ trace (second_attempt w d)
        ++ [StError (error_text (Some e2))])).
Proof.
  rewrite load_sst_data_unfold. unfold first_attempt, second_attempt.
  destruct (attempt w (data_url d) d (Some "pydap")) as [[g1|e1] t1].
  - left. exists g1. split; reflexivity.
  - destruct (attempt w (data_url d) d None) as [[g2|e2] t2].
    + right; left. exists e1, g2. repeat split; reflexivity.
    + right; right. exists e1, e2. repeat split; reflexivity.
Qed.

Lemma load_sst_data_returns (w : world) (d : date) :
  exists v, outcome (load_sst_data w d) = Return v.
Proof.
  destruct (load_sst_data_cases w d) as [(g & _ & E)|[(e1 & g & _ & _ & E)|(e1 & e2 & _ & _ & E)]];
    rewrite E; eauto.
Qed.

(** ** The fetcher never raises *)

(** C1. Whatever the network and the archive do on any date, [load_sst_data]
    returns: either a grid, or the failure marker [None] after it has shown
    one error message, which quotes the error of the last attempt.  No
    exception of an attempt reaches the caller. *)
Theorem load_sst_data_never_raises (w : world) (d : date) :
  (forall e, outcome (load_sst_data w d) <> Raise e) /\
  ((exists g, outcome (load_sst_data w d) = Return (Some g) /\
      forall msg, ~ In (StError msg) (trace (load_sst_data w d))) \/
   (outcome (load_sst_data w d) = Return None /\
    exists e pre,
      outcome (second_attempt w d) = Raise e /\
      trace (load_sst_data w d) = pre ++ [StError (error_text (Some e))] /\
      (forall msg, ~ In (StError msg) pre) /\
      contains_text (error_text (Some e)) (exn_str e))).
Proof.
  assert (Hno : forall eng msg,
             ~ In (StError msg) (trace (attempt w (data_url d) d eng))).
  { intros eng msg Hin.
    assert (Hf := attempt_no_element w (data_url d) d eng).
    assert (Hin' : In (StError msg)
                     (List.filter is_st_element (trace (attempt w (data_url d) d eng)))).
    { apply filter_In. split; [exact Hin|reflexivity]. }
    rewrite Hf in Hin'. destruct Hin'. }
  split.
  - intros e. destruct (load_sst_data_returns w d) as [v Hv]. rewrite Hv. discriminate.
  - destruct (load_sst_data_cases w d)
      as [(g & _ & E)|[(e1 & g & _ & _ & E)|(e1 & e2 & _ & H2 & E)]]; rewrite E.
    + left. exists g. split; [reflexivity|]. cbn. intros msg [Hc|Hc].
      * discriminate Hc.
      * exact (Hno _ _ Hc).
    + left. exists g. split; [reflexivity|]. cbn. intros msg [Hc|Hc].
      * discriminate Hc.
      * apply in_app_or in Hc. destruct Hc as [Hc|Hc]; exact (Hno _ _ Hc).
    + right. split; [reflexivity|].
      exists e2, (source_info d :: trace (first_attempt w d) ++ trace (second_attempt w d)).
      split; [exact H2|]. split.
      * cbn. rewrite <- app_assoc. reflexivity.
      * split; [|apply error_text_quotes].
        intros msg [Hc|Hc]; [discriminate Hc|].
        apply in_app_or in Hc. destruct Hc as [Hc|Hc]; exact (Hno _ _ Hc).
Qed.

(** ** The order of the engines *)

Lemma load_sst_data_opens (w : world) (d : date) :
  opens (trace (load_sst_data w d)) =
  match outcome (first_attempt w d) with
  | Return _ => [Some "pydap"]
  | Raise _ => [Some "pydap"; None]
  end.
Proof.
  assert (H1 := attempt_opens w (data_url d) d (Some "pydap")).
  assert (H2 := attempt_opens w (data_url d) d None).
  fold (first_attempt w d) in H1. fold (second_attempt w d) in H2.
  destruct (load_sst_data_cases w d)
    as [(g & E1 & E)|[(e1 & g & E1 & _ & E)|(e1 & e2 & E1 & _ & E)]];
    rewrite E, E1; cbn; rewrite ?opens_app, ?H1, ?H2; reflexivity.
Qed.

(** C3. The engines are tried in the order of the list, pydap first and the
    default engine second.  The first attempt that returns ends the loop and
    its grid is the result; when both fail the message shown quotes the error
    of the second, which is the last one observed. *)
Theorem engines_tried_in_order (w : world) (d : date) :
  engines_to_try = [Some "pydap"; None] /\
  (forall g, outcome (first_attempt w d) = Return g ->
     outcome (load_sst_data w d) = Return (Some g) /\
     opens (trace (load_sst_data w d)) = [Some "pydap"]) /\
  (forall e1 g,
     outcome (first_attempt w d) = Raise e1 ->
     outcome (second_attempt w d) = Return g ->
     outcome (load_sst_data w d) = Return (Some g) /\
     opens (trace (load_sst_data w d)) = [Some "pydap"; None]) /\
  (forall e1 e2,
     outcome (first_attempt w d) = Raise e1 ->
     outcome (second_attempt w d) = Raise e2 ->
     outcome (load_sst_data w d) = Return None /\
     opens (trace (load_sst_data w d)) = [Some "pydap"; None] /\
     In (StError (error_text (Some e2))) (trace (load_sst_data w d)) /\
     contains_text (error_text (Some e2)) (exn_str e2)).
Proof.
  split; [reflexivity|].
  assert (Ho := load_sst_data_opens w d).
  destruct (load_sst_data_cases w d)
    as [(g & E1 & E)|[(e1 & g & E1 & E2 & E)|(e1 & e2 & E1 & E2 & E)]];
    rewrite E1 in Ho; rewrite E1, ?E2.
  - split; [|split]; try (intros; discriminate).
    intros g' Hg. injection Hg as <-. rewrite E. split; [reflexivity|].
    rewrite <- E. exact Ho.
  - split; [|split]; try (intros; discriminate).
    intros e1' g' _ Hg. injection Hg as <-. rewrite E. split; [reflexivity|].
    rewrite <- E. exact Ho.
  - split; [|split]; try (intros; discriminate).
    intros e1' e2' _ He. injection He as <-. split; [rewrite E; reflexivity|].
    split; [exact Ho|]. split; [|apply error_text_quotes].
    rewrite E. cbn. right. apply in_or_app. right. apply in_or_app. right.
    left. reflexivity.
Qed.

(** ** Errors after a successful open *)

(** C2, as stated, fails: when the bridge engine opens the archive and the
    read then fails, the default engine is still tried, and the fetch
    returns its grid. *)
Lemma post_open_error_need_not_fail :
  ~ (forall w d,
       (exists eng, In eng engines_to_try /\ raises_after_open w d eng) ->
       outcome (load_sst_data w d) = Return None).
Proof.
  intros H.
  specialize (H Sample.pydap_broken_read Sample.d20230715).
  assert (Hp : exists eng, In eng engines_to_try /\
                 raises_after_open Sample.pydap_broken_read Sample.d20230715 eng).
  { exists (Some "pydap"). split; [left; reflexivity|].
    exists Sample.broken_read, (Exn "RuntimeError" "NetCDF: Access failure").
    split; reflexivity. }
  specialize (H Hp). vm_compute in H. discriminate H.
Qed.

(** C2, amended. A fetch returns the failure marker exactly when both
    attempts fail; the message then ends the trace and carries the error of
    the second attempt, and no more open calls are issued than there are
    engines.  After a successful open, a missing variable, a date that is not
    on the time axis, a label slice that is refused and a failed read each
    fail that attempt, with the error of the first of them in that order; the
    failure of the first attempt does not fail the call, which returns what
    the second attempt returns. *)
Theorem fetch_fails_iff_every_attempt_fails (w : world) (d : date) :
  (outcome (load_sst_data w d) = Return None <->
   exists e1 e2, outcome (first_attempt w d) = Raise e1 /\
                 outcome (second_attempt w d) = Raise e2) /\
  (forall e1 e2,
     outcome (first_attempt w d) = Raise e1 ->
     outcome (second_attempt w d) = Raise e2 ->
     exists pre,
       trace (load_sst_data w d) = pre ++ [StError (error_text (Some e2))]) /\
  (length (opens (trace (load_sst_data w d))) <= length engines_to_try)%nat /\
  (forall eng ds,
     remote w (data_url d) eng = inr ds ->
     (xr.contains ds "sst" = false ->
      outcome (attempt w (data_url d) d eng) = Raise missing_variable) /\
     (xr.contains ds "sst" = true ->
      xr.get_loc (ds_time ds) (datetime64 d) = None ->
      outcome (attempt w (data_url d) d eng) = Raise xr.missing_label) /\
     (forall t e,
        xr.contains ds "sst" = true ->
        xr.get_loc (ds_time ds) (datetime64 d) = Some t ->
        slice_error ds = Some e ->
        outcome (attempt w (data_url d) d eng) = Raise e) /\
     (forall t e,
        xr.contains ds "sst" = true ->
        xr.get_loc (ds_time ds) (datetime64 d) = Some t ->
        ds_load_error ds = Some e ->
        outcome (attempt w (data_url d) d eng)
        = Raise (default e (slice_error ds)))) /\
  (forall e1 g,
     outcome (first_attempt w d) = Raise e1 ->
     outcome (second_attempt w d) = Return g ->
     outcome (load_sst_data w d) = Return (Some g)).
Proof.
  assert (Ho := load_sst_data_opens w d).
  split; [|split; [|split; [|split]]].
  - destruct (load_sst_data_cases w d)
      as [(g & E1 & E)|[(e1 & g & E1 & E2 & E)|(e1 & e2 & E1 & E2 & E)]];
      rewrite E; cbn; split.
    + discriminate.
    + intros (e1 & e2 & H1 & _). rewrite E1 in H1. discriminate.
    + discriminate.
    + intros (e1' & e2 & _ & H2). rewrite E2 in H2. discriminate.
    + intros _. exists e1, e2. split; assumption.
    + reflexivity.
  - intros e1 e2 H1 H2.
    destruct (load_sst_data_cases w d)
      as [(g & E1 & E)|[(e1' & g & E1 & E2 & E)|(e1' & e2' & E1 & E2 & E)]].
    + rewrite E1 in H1. discriminate.
    + rewrite E2 in H2. discriminate.
    + rewrite E2 in H2. injection H2 as <-. rewrite E. cbn.
      exists (source_info d :: trace (first_attempt w d) ++ trace (second_attempt w d)).
      cbn. rewrite <- app_assoc. reflexivity.
  - rewrite Ho. destruct (outcome (first_attempt w d)); cbn; lia.
  - intros eng ds Hds. rewrite attempt_unfold, Hds.
    split; [|split; [|split]].
    + intros ->. reflexivity.
    + intros -> ->. reflexivity.
    + intros t e -> -> ->. reflexivity.
    + intros t e -> -> ->. destruct (slice_error ds); reflexivity.
  - intros e1 g H1 H2.
    destruct (load_sst_data_cases w d)
      as [(g' & E1 & E)|[(e1' & g' & E1 & E2 & E)|(e1' & e2' & E1 & E2 & E)]].
    + rewrite E1 in H1. discriminate.
    + rewrite E2 in H2. injection H2 as <-. rewrite E. reflexivity.
    + rewrite E2 in H2. discriminate.
Qed.

(** ** Closing the remote handle *)

(** An attempt that returns has closed its handle. *)
Lemma attempt_returns_closed (w : world) (url : string) (d : date)
    (eng : option string) (g : DataArray) :
  outcome (attempt w url d eng) = Return g ->
  open_handles [] (trace (attempt w url d eng)) = [].
Proof.
  rewrite attempt_unfold.
  destruct (remote w url eng) as [e|ds]; [discriminate|].
  destruct (xr.contains ds "sst"); [|discriminate].
  destruct (xr.get_loc (ds_time ds) (datetime64 d)); [|discriminate].
  destruct (slice_error ds); [discriminate|].
  destruct (ds_load_error ds); [discriminate|].
  destruct (ds_close_error ds); [discriminate|].
  intros _. cbn. destruct eng as [s|]; cbn; [|reflexivity].
  rewrite String.eqb_refl. reflexivity.
Qed.

(** C9 does not hold. On a date that is not yet on the time axis both
    engines open the archive, the selection raises, and the fetch returns
    with both handles still open: [ds.close()] is only reached on the path
    that returns a grid. *)
Theorem handles_left_open_on_failure :
  outcome (load_sst_data Sample.online Sample.d20231102) = Return None /\
  open_handles [] (trace (load_sst_data Sample.online Sample.d20231102))
  = [Some "pydap"; None].
Proof. split; vm_compute; reflexivity. Qed.

(** ** The result cache *)

Lemma filter_elements (t : list event) :
  forallb is_st_element (List.filter is_st_element t) = true.
Proof.
  induction t as [|ev t IH]; [reflexivity|].
  destruct ev; cbn; exact IH.
Qed.

Lemma elements_no_network (t : list event) :
  forallb is_st_element t = true -> List.filter is_network t = [].
Proof.
  induction t as [|ev t IH]; [reflexivity|].
  destruct ev; cbn; try discriminate; exact IH.
Qed.

Lemma elements_no_render (t : list event) (r : renderer) (g : DataArray) :
  forallb is_st_element t = true -> ~ In (Render r g) t.
Proof.
  intros H Hin.
  assert (Hr := proj1 (forallb_forall _ _) H _ Hin). discriminate Hr.
Qed.

Lemma asia_grid_wf (ds : Dataset) (d : date) (t : nat) : wf_grid (asia_grid ds d t).
Proof.
  unfold wf_grid, asia_grid, xr.materialize. cbn. split.
  - rewrite !length_map. reflexivity.
  - apply List.Forall_forall. intros row Hrow.
    apply in_map_iff in Hrow. destruct Hrow as (i & <- & _).
    rewrite !length_map. reflexivity.
Qed.

Lemma attempt_wf (w : world) (url : string) (d : date) (eng : option string)
    (g : DataArray) :
  outcome (attempt w url d eng) = Return g -> wf_grid g.
Proof.
  rewrite attempt_unfold.
  destruct (remote w url eng) as [e|ds]; [discriminate|].
  destruct (xr.contains ds "sst"); [|discriminate].
  destruct (xr.get_loc (ds_time ds) (datetime64 d)); [|discriminate].
  destruct (slice_error ds); [discriminate|].
  destruct (ds_load_error ds); [discriminate|].
  destruct (ds_close_error ds); [discriminate|].
  cbn. intros H. injection H as <-. apply asia_grid_wf.
Qed.

Lemma load_sst_data_wf (w : world) (d : date) (g : DataArray) :
  outcome (load_sst_data w d) = Return (Some g) -> wf_grid g.
Proof.
  destruct (load_sst_data_cases w d)
    as [(g' & E1 & E)|[(e1 & g' & E1 & E2 & E)|(e1 & e2 & E1 & E2 & E)]];
    rewrite E; cbn; intros H; try discriminate; injection H as <-.
  - exact (attempt_wf _ _ _ _ _ E1).
  - exact (attempt_wf _ _ _ _ _ E2).
Qed.

(** A fetch through the cache returns, and leaves its value under its date. *)
Lemma cached_records (cache : gmap date (option DataArray * list event))
    (w : world) (d : date) :
  exists v els,
    outcome (fst (cached_load_sst_data cache w d)) = Return v /\
    snd (cached_load_sst_data cache w d) !! d = Some (v, els).
Proof.
  unfold cached_load_sst_data.
  destruct (cache !! d) as [[v els]|] eqn:Hd.
  - exists v, els. split; [reflexivity|exact Hd].
  - destruct (load_sst_data_returns w d) as [v Hv]. rewrite Hv.
    exists v, (List.filter is_st_element (trace (load_sst_data w d))).
    split; [exact Hv|]. cbn. apply lookup_insert_eq.
Qed.

(** A hit: the value and the elements of the entry, nothing else. *)
Lemma cached_hit (cache : gmap date (option DataArray * list event))
    (w : world) (d : date) (v : option DataArray) (els : list event) :
  cache !! d = Some (v, els) ->
  cached_load_sst_data cache w d = ((Return v, els), cache).
Proof. intros H. unfold cached_load_sst_data. rewrite H. reflexivity. Qed.

(** No entry is ever dropped or replaced. *)
Lemma cached_keeps (cache : gmap date (option DataArray * list event))
    (w : world) (d d' : date) (x : option DataArray * list event) :
  cache !! d = Some x ->
  snd (cached_load_sst_data cache w d') !! d = Some x.
Proof.
  intros H. unfold cached_load_sst_data.
  destruct (cache !! d') as [[v els]|] eqn:Hd'; [exact H|].
  destruct (outcome (load_sst_data w d')); [|exact H].
  cbn. rewrite lookup_insert_ne; [exact H|].
  intros ->. rewrite H in Hd'. discriminate.
Qed.

Lemma fetch_all_keeps (calls : list (world * date))
    (cache : gmap date (option DataArray * list event))
    (d : date) (x : option DataArray * list event) :
  cache !! d = Some x -> fetch_all cache calls !! d = Some x.
Proof.
  revert cache. induction calls as [|[w d'] rest IH]; intros cache H; [exact H|].
  cbn. apply IH. apply cached_keeps. exact H.
Qed.

Lemma cache_ok_empty : cache_ok ∅.
Proof. intros d v els H. rewrite lookup_empty in H. discriminate. Qed.

Lemma cached_ok (cache : gmap date (option DataArray * list event))
    (w : world) (d : date) :
  cache_ok cache -> cache_ok (snd (cached_load_sst_data cache w d)).
Proof.
  intros Hok. unfold cached_load_sst_data.
  destruct (cache !! d) as [[v els]|] eqn:Hd; [exact Hok|].
  destruct (outcome (load_sst_data w d)) as [v|e] eqn:Hv; [|exact Hok].
  cbn. intros d' v' els' H.
  destruct (decide (d = d')) as [<-|Hne].
  - rewrite lookup_insert_eq in H. injection H as <- <-.
    split; [apply filter_elements|].
    intros g ->. exact (load_sst_data_wf _ _ _ Hv).
  - rewrite lookup_insert_ne in H by exact Hne. exact (Hok _ _ _ H).
Qed.

Lemma fetch_all_ok (calls : list (world * date))
    (cache : gmap date (option DataArray * list event)) :
  cache_ok cache -> cache_ok (fetch_all cache calls).
Proof.
  revert cache. induction calls as [|[w d] rest IH]; intros cache H; [exact H|].
  cbn. apply IH. apply cached_ok. exact H.
Qed.

(** C4. In a session (the cache starts empty and is only written by the
    fetches), once a date has been fetched, fetching it again, at once or
    after any other fetches and whatever the network has become, returns the
    outcome of the first call, grid or failure marker alike, issues no
    network call and leaves the cache as it is. *)
Theorem repeated_fetch_is_served_from_cache
    (before between : list (world * date)) (w w' : world) (d : date) :
  let cache0 := fetch_all ∅ before in
  let first := cached_load_sst_data cache0 w d in
  let cache1 := fetch_all (snd first) between in
  let second := cached_load_sst_data cache1 w' d in
  (exists v, outcome (fst first) = Return v) /\
  outcome (fst second) = outcome (fst first) /\
  List.filter is_network (trace (fst second)) = [] /\
  snd second = cache1.
Proof.
  intros cache0 first cache1 second.
  destruct (cached_records cache0 w d) as (v & els & Hv & Hd).
  fold first in Hv, Hd.
  assert (H1 : cache1 !! d = Some (v, els)) by (apply fetch_all_keeps; exact Hd).
  assert (Hok : cache_ok cache1).
  { apply fetch_all_ok, cached_ok, fetch_all_ok, cache_ok_empty. }
  unfold second. rewrite (cached_hit _ _ _ _ _ H1). cbn.
  split; [exists v; exact Hv|].
  split; [symmetry; exact Hv|].
  split; [exact (elements_no_network _ (proj1 (Hok _ _ _ H1)))|reflexivity].
Qed.

(** ** The dataset locator *)

Lemma in_zrange (n : nat) (start y : Z) :
  start <= y < start + Z.of_nat n -> In y (zrange start n).
Proof.
  revert start. induction n as [|n IH]; intros start H; [lia|].
  cbn [zrange]. destruct (Z.eq_dec start y) as [->|Hne]; [left; reflexivity|].
  right. apply IH. lia.
Qed.

Lemma four_digits_table :
  forallb (fun y => Nat.eqb (String.length (str_int y)) 4)
          (zrange 1000 (Z.to_nat 9000)) = true.
Proof. vm_compute. reflexivity. Qed.

Lemma four_digits (y : Z) :
  1000 <= y <= 9999 -> String.length (str_int y) = 4%nat.
Proof.
  intros Hy.
  assert (Hin : In y (zrange 1000 (Z.to_nat 9000))).
  { apply in_zrange. rewrite Z2Nat.id by lia. lia. }
  assert (H := proj1 (forallb_forall _ _) four_digits_table _ Hin).
  cbn beta in H. apply Nat.eqb_eq. exact H.
Qed.

Lemma date_leb_year (a b : date) : date_leb a b = true -> year a <= year b.
Proof.
  unfold date_leb, date_cmp.
  destruct (year a ?= year b) eqn:E.
  - apply Z.compare_eq in E. lia.
  - rewrite Z.compare_lt_iff in E. lia.
  - discriminate.
Qed.

(** C7. For two dates the picker can yield (valid dates between 1981-09-01
    and two days before today) that share their year, the locators are the
    same string; the locator is the fixed prefix, the year in decimal, which
    has four digits, and [.nc]. *)
Theorem locator_depends_on_year_only (now max_date d1 d2 : date) :
  valid_date d1 -> valid_date d2 ->
  sub_days now 2 = Some max_date ->
  in_range min_date max_date d1 = true ->
  in_range min_date max_date d2 = true ->
  year d1 = year d2 ->
  data_url d1 = data_url d2 /\
  data_url d1 =
    "https://psl.noaa.gov/thredds/dodsC/Datasets/noaa.oisst.v2.highres/sst.day.mean."
    +:+ str_int (year d1) +:+ ".nc" /\
  String.length (str_int (year d1)) = 4%nat.
Proof.
  intros V1 _ _ R1 _ Hy.
  split; [unfold data_url; rewrite Hy; reflexivity|].
  split; [reflexivity|].
  apply four_digits.
  unfold in_range in R1. apply andb_prop in R1. destruct R1 as [R1 _].
  apply date_leb_year in R1. cbn in R1.
  destruct V1 as [[_ V1] _]. unfold MAXYEAR in V1. lia.
Qed.

Lemma locator_depends_on_year_only_witness :
  data_url (mkdate 2023 7 15) = data_url (mkdate 2023 11 2) /\
  data_url (mkdate 2023 7 15) =
    "https://psl.noaa.gov/thredds/dodsC/Datasets/noaa.oisst.v2.highres/sst.day.mean."
    +:+ str_int 2023 +:+ ".nc" /\
  String.length (str_int 2023) = 4%nat.
Proof.
  apply (locator_depends_on_year_only
           (mkdate 2023 11 4) (mkdate 2023 11 2) (mkdate 2023 7 15) (mkdate 2023 11 2)).
  - unfold valid_date, MINYEAR, MAXYEAR; cbn; lia.
  - unfold valid_date, MINYEAR, MAXYEAR; cbn; lia.
  - reflexivity.
  - reflexivity.
  - reflexivity.
  - reflexivity.
Defined.

(** ** The colour scale *)

Lemma Qlt_bool_true (x y : Q) : xr.Qlt_bool x y = true <-> (x < y)%Q.
Proof.
  unfold xr.Qlt_bool. rewrite negb_true_iff. split.
  - intros H. apply Qnot_le_lt. intros Hle.
    apply Qle_bool_iff in Hle. congruence.
  - intros H. destruct (Qle_bool y x) eqn:E; [|reflexivity].
    apply Qle_bool_iff in E. exfalso. exact (Qlt_not_le _ _ H E).
Qed.

Lemma Qlt_bool_false (x y : Q) : xr.Qlt_bool x y = false <-> (y <= x)%Q.
Proof.
  unfold xr.Qlt_bool. rewrite negb_false_iff. apply Qle_bool_iff.
Qed.

(** The colormap does not tell equal rationals apart. *)
Lemma cmap_call_Qeq (N : Z) (x y : Q) :
  (x == y)%Q -> mpl.cmap_call N (mpl.Fin x) = mpl.cmap_call N (mpl.Fin y).
Proof.
  intros H. unfold mpl.cmap_call, xr.Qlt_bool.
  assert (Hxa : (x * inject_Z N == y * inject_Z N)%Q) by (rewrite H; reflexivity).
  rewrite (Qeqb_comp _ _ Hxa _ _ (Qeq_refl _)).
  rewrite (Qleb_comp _ _ (Qeq_refl 0%Q) _ _ Hxa).
  rewrite (Qleb_comp _ _ (Qeq_refl (inject_Z N)) _ _ Hxa).
  rewrite (Qfloor_comp _ _ Hxa).
  reflexivity.
Qed.

Lemma norm_center :
  exists x, mpl.norm_call sst_norm (Some (inject_Z 30)) = mpl.Fin x /\ (x == 1 # 2)%Q.
Proof. eexists. split; [reflexivity|]. reflexivity. Qed.

Lemma color_center :
  mpl.cmap_call mpl.image_lut (mpl.norm_call sst_norm (Some (inject_Z 30)))
  = mpl.Entry (mpl.image_lut / 2).
Proof. reflexivity. Qed.

Lemma color_low (v : Q) :
  (v <= inject_Z 20)%Q ->
  mpl.cmap_call mpl.image_lut (mpl.norm_call sst_norm (Some v)) = mpl.Entry 0.
Proof.
  intros Hv. unfold mpl.norm_call, sst_norm. cbn [vmin vcenter vmax].
  destruct (xr.Qlt_bool v (inject_Z 20)) eqn:E1; [reflexivity|].
  apply Qlt_bool_false in E1.
  assert (Hv20 : (v == inject_Z 20)%Q) by (apply Qle_antisym; assumption).
  assert (E2 : xr.Qlt_bool (inject_Z 34) v = false).
  { apply Qlt_bool_false. rewrite Hv20. discriminate. }
  assert (E3 : xr.Qlt_bool v (inject_Z 30) = true).
  { apply Qlt_bool_true. rewrite Hv20. reflexivity. }
  rewrite E2, E3.
  rewrite (cmap_call_Qeq _ _ 0%Q); [reflexivity|].
  rewrite Hv20. reflexivity.
Qed.

Lemma color_high (v : Q) :
  (inject_Z 34 <= v)%Q ->
  mpl.cmap_call mpl.image_lut (mpl.norm_call sst_norm (Some v))
  = mpl.Entry (mpl.image_lut - 1).
Proof.
  intros Hv. unfold mpl.norm_call, sst_norm. cbn [vmin vcenter vmax].
  assert (E1 : xr.Qlt_bool v (inject_Z 20) = false).
  { apply Qlt_bool_false. eapply Qle_trans; [|exact Hv]. discriminate. }
  rewrite E1.
  destruct (xr.Qlt_bool (inject_Z 34) v) eqn:E2; [reflexivity|].
  apply Qlt_bool_false in E2.
  assert (Hv34 : (v == inject_Z 34)%Q) by (apply Qle_antisym; assumption).
  assert (E3 : xr.Qlt_bool v (inject_Z 30) = false).
  { apply Qlt_bool_false. rewrite Hv34. discriminate. }
  rewrite E3.
  rewrite (cmap_call_Qeq _ _ 1%Q); [reflexivity|].
  rewrite Hv34. reflexivity.
Qed.

Lemma cartopy_scale (api : cartopy_api) (g : DataArray) (d : date) (f : Figure) :
  outcome (create_map_with_cartopy api g d) = Return f ->
  fig_norm f = sst_norm /\ fig_cmap f = "YlOrRd".
Proof.
  unfold create_map_with_cartopy, mpl.pcolormesh.
  destruct (gridline_labels api) as [[labels|e] t]; cbn; [|discriminate].
  destruct (Nat.eqb (xr.ndim g) 2); cbn; [|discriminate].
  intros H. injection H as <-. split; reflexivity.
Qed.

Lemma plain_scale (g : DataArray) (d : date) (f : Figure) :
  outcome (create_simple_latlon_plot g d) = Return f ->
  fig_norm f = sst_norm /\ fig_cmap f = "YlOrRd".
Proof.
  unfold create_simple_latlon_plot, mpl.pcolormesh, mpl.np_min, mpl.np_max.
  cbn.
  destruct (Nat.eqb (xr.ndim g) 2); cbn; [|discriminate].
  destruct (mpl.Qmin_list (da_lon g)); cbn; [|discriminate].
  destruct (mpl.Qmax_list (da_lon g)); cbn; [|discriminate].
  destruct (mpl.Qmin_list (da_lat g)); cbn; [|discriminate].
  destruct (mpl.Qmax_list (da_lat g)); cbn; [|discriminate].
  intros H. injection H as <-. split; reflexivity.
Qed.

(** C6. The figures of the two renderers carry the same normalisation and
    the same palette; on either, 30 degrees normalises to one half, the
    centre of the scale, every value at or under 20 degrees takes the first
    colour of the palette and every value at or over 34 degrees the last. *)
Theorem color_scale_breakpoints (api : cartopy_api) (g1 g2 : DataArray)
    (d1 d2 : date) (f1 f2 : Figure) :
  outcome (create_map_with_cartopy api g1 d1) = Return f1 ->
  outcome (create_simple_latlon_plot g2 d2) = Return f2 ->
  fig_norm f1 = fig_norm f2 /\
  fig_cmap f1 = fig_cmap f2 /\
  forall f, f = f1 \/ f = f2 ->
    (exists x, mpl.norm_call (fig_norm f) (Some (inject_Z 30)) = mpl.Fin x /\
               (x == 1 # 2)%Q) /\
    mpl.fig_color f (Some (inject_Z 30)) = mpl.Entry (mpl.image_lut / 2) /\
    (forall v, (v <= inject_Z 20)%Q -> mpl.fig_color f (Some v) = mpl.Entry 0) /\
    (forall v, (inject_Z 34 <= v)%Q ->
               mpl.fig_color f (Some v) = mpl.Entry (mpl.image_lut - 1)).
Proof.
  intros H1 H2.
  apply cartopy_scale in H1. destruct H1 as [N1 C1].
  apply plain_scale in H2. destruct H2 as [N2 C2].
  split; [congruence|]. split; [congruence|].
  intros f Hf.
  assert (Hn : fig_norm f = sst_norm) by (destruct Hf as [->| ->]; assumption).
  unfold mpl.fig_color. rewrite Hn.
  split; [exact norm_center|].
  split; [exact color_center|].
  split; [exact color_low|exact color_high].
Qed.

Lemma color_scale_breakpoints_witness :
  exists f1 f2,
    outcome (create_map_with_cartopy Sample.modern_cartopy Sample.grid
               Sample.d20230715) = Return f1 /\
    outcome (create_simple_latlon_plot Sample.grid Sample.d20230715) = Return f2 /\
    fig_norm f1 = fig_norm f2 /\
    fig_cmap f1 = fig_cmap f2 /\
    forall f, f = f1 \/ f = f2 ->
      (exists x, mpl.norm_call (fig_norm f) (Some (inject_Z 30)) = mpl.Fin x /\
                 (x == 1 # 2)%Q) /\
      mpl.fig_color f (Some (inject_Z 30)) = mpl.Entry (mpl.image_lut / 2) /\
      (forall v, (v <= inject_Z 20)%Q -> mpl.fig_color f (Some v) = mpl.Entry 0) /\
      (forall v, (inject_Z 34 <= v)%Q ->
                 mpl.fig_color f (Some v) = mpl.Entry (mpl.image_lut - 1)).
Proof.
  eexists. eexists.
  split; [vm_compute; reflexivity|].
  split; [vm_compute; reflexivity|].
  apply (color_scale_breakpoints Sample.modern_cartopy Sample.grid Sample.grid
           Sample.d20230715 Sample.d20230715); vm_compute; reflexivity.
Defined.

(** ** The plain renderer *)

Lemma Qmin_list_spec (l : list Q) :
  l <> [] -> exists m, mpl.Qmin_list l = Some m /\ is_minimum m l.
Proof.
  induction l as [|x t IH]; [congruence|]. intros _.
  destruct t as [|y t'].
  - exists x. split; [reflexivity|]. split; [left; reflexivity|].
    constructor; [apply Qle_refl|constructor].
  - destruct IH as (m & Em & Hin & Hall); [discriminate|].
    cbn [mpl.Qmin_list]. cbn [mpl.Qmin_list] in Em. rewrite Em.
    destruct (Qle_bool x m) eqn:E.
    + apply Qle_bool_iff in E. exists x. split; [reflexivity|].
      split; [left; reflexivity|].
      constructor; [apply Qle_refl|].
      eapply List.Forall_impl; [|exact Hall].
      intros z Hz. cbn in Hz. eapply Qle_trans; eassumption.
    + exists m. split; [reflexivity|]. split; [right; exact Hin|].
      constructor; [|exact Hall].
      apply Qlt_le_weak, Qnot_le_lt. intros Hle.
      apply Qle_bool_iff in Hle. congruence.
Qed.

Lemma Qmax_list_spec (l : list Q) :
  l <> [] -> exists m, mpl.Qmax_list l = Some m /\ is_maximum m l.
Proof.
  induction l as [|x t IH]; [congruence|]. intros _.
  destruct t as [|y t'].
  - exists x. split; [reflexivity|]. split; [left; reflexivity|].
    constructor; [apply Qle_refl|constructor].
  - destruct IH as (m & Em & Hin & Hall); [discriminate|].
    cbn [mpl.Qmax_list]. cbn [mpl.Qmax_list] in Em. rewrite Em.
    destruct (Qle_bool m x) eqn:E.
    + apply Qle_bool_iff in E. exists x. split; [reflexivity|].
      split; [left; reflexivity|].
      constructor; [apply Qle_refl|].
      eapply List.Forall_impl; [|exact Hall].
      intros z Hz. cbn in Hz. eapply Qle_trans; eassumption.
    + exists m. split; [reflexivity|]. split; [right; exact Hin|].
      constructor; [|exact Hall].
      apply Qlt_le_weak, Qnot_le_lt. intros Hle.
      apply Qle_bool_iff in Hle. congruence.
Qed.

(** A grid with a number in it has a latitude and a longitude. *)
Lemma valued_grid_nonempty (g : DataArray) :
  wf_grid g -> xr.isnull_all g = false -> da_lat g <> [] /\ da_lon g <> [].
Proof.
  intros [Hlen Hrows] Hnn. unfold xr.isnull_all in Hnn.
  destruct (da_values g) as [|row rows] eqn:Ev; [discriminate|].
  split.
  - intros E. rewrite E in Hlen. discriminate.
  - intros E. rewrite E in Hrows.
    assert (Hall : forall r, In r (row :: rows) -> r = []).
    { intros r Hr. rewrite List.Forall_forall in Hrows.
      specialize (Hrows r Hr). destruct r; [reflexivity|discriminate]. }
    assert (Ht : forallb (forallb (fun c : cell =>
                  match c with None => true | Some _ => false end))
                  (row :: rows) = true).
    { apply forallb_forall. intros r Hr. rewrite (Hall r Hr). reflexivity. }
    congruence.
Qed.



(** The page once the renderer has returned a figure: drawing it may still
    fail; otherwise the figure, the caption and the grid are shown. *)
Lemma show_drawn (e : env) (d : date) (g : DataArray) (fig : Figure)
    (lat_min lat_max lon_min lon_max : Q) :
  xr.isnull_all g = false ->
  render e g d = (Return fig, []) ->
  mpl.Qmin_list (da_lat g) = Some lat_min ->
  mpl.Qmax_list (da_lat g) = Some lat_max ->
  mpl.Qmin_list (da_lon g) = Some lon_min ->
  mpl.Qmax_list (da_lon g) = Some lon_max ->
  show e d (Some g) =
  match draw_error e fig with
  | Some ex => (Raise ex, rendering_elements e d g)
  | None =>
      (Return tt,
       figure_elements e d g fig
         (caption_text lat_min lat_max lon_min lon_max))
  end.
Proof.
  intros Hnn Hr E1 E2 E3 E4.
  unfold show, render, figure_elements, rendering_elements, st_pyplot,
    maybe_raise, mpl.np_min, mpl.np_max in *.
  rewrite Hnn, E1, E2, E3, E4. cbn [negb].
  destruct (HAS_CARTOPY e); rewrite Hr; cbn;
    destruct (draw_error e fig); reflexivity.
Qed.

(** The page when the renderer raises. *)
Lemma show_not_drawn (e : env) (d : date) (g : DataArray) (ex : exn) :
  xr.isnull_all g = false ->
  render e g d = (Raise ex, []) ->
  show e d (Some g) = (Raise ex, rendering_elements e d g).
Proof.
  intros Hnn Hr.
  unfold show, render, rendering_elements in *.
  rewrite Hnn. cbn [negb].
  destruct (HAS_CARTOPY e); rewrite Hr; reflexivity.
Qed.




(** The sample grid's limits are apart, so the figure keeps them. *)
Example sample_limits_apart :
  apart (60 # 1) (150 # 1) /\ apart (-10 # 1) (60 # 1) /\
  mpl.set_lim (100 # 1) (100 # 1)
  = (((100 # 1) - (5 # 100) * Qabs (100 # 1))%Q,
     ((100 # 1) + (5 # 100) * Qabs (100 # 1))%Q).
Proof.
  split; [split; vm_compute; [discriminate|reflexivity]|].
  split; [split; vm_compute; [discriminate|reflexivity]|].
  vm_compute. reflexivity.
Qed.

(** ** The grid a fetch returns *)



























Example fetched_grid_sample :
  outcome (load_sst_data Sample.online Sample.d20230715) = Return (Some Sample.grid).
Proof. vm_compute. reflexivity. Qed.


(** The sample archive has increasing axes, and the two bounds of each slice
    are labels of the axis. *)
Example sample_axes_increasing :
  xr.is_monotonic_increasing (ds_lat Sample.oisst) = true /\
  xr.is_monotonic_increasing (ds_lon Sample.oisst) = true /\
  box_slice (ds_lat Sample.oisst) asia_lat = (1%nat, 6%nat) /\
  box_slice (ds_lon Sample.oisst) asia_lon = (1%nat, 5%nat).
Proof. repeat split; vm_compute; reflexivity. Qed.

(** Latitudes stored from north to south: pandas places the bounds at 3 and
    0, and the fetch returns a grid without latitudes. *)
Example north_first_fetch :
  xr.slice_indexer (ds_lat Edge.southward) (-10) 60 = inr (3%nat, 0%nat) /\
  outcome (load_sst_data Edge.north_first Sample.d20230715)
  = Return (Some Edge.southward_grid) /\
  da_lat Edge.southward_grid = [] /\
  xr.isnull_all Edge.southward_grid = true.
Proof. repeat split; vm_compute; reflexivity. Qed.

(** Latitudes in no order: a bound the axis does not hold cannot be placed,
    the selection raises in both attempts and the fetch fails; bounds the
    axis holds are taken at their positions, whatever lies between them. *)
Example unordered_axis_fetch :
  xr.slice_indexer (ds_lat Edge.shuffled) (-10) 60
  = inl (xr.label_not_found (-10)) /\
  outcome (load_sst_data Edge.unordered Sample.d20230715) = Return None /\
  last (trace (load_sst_data Edge.unordered Sample.d20230715))
  = Some (StError (error_text (Some (xr.label_not_found (-10))))) /\
  xr.slice_indexer [-10 # 1; 80 # 1; 60 # 1] (-10) 60 = inr (0%nat, 3%nat) /\
  xr.slice_indexer [-10 # 1; 60 # 1; 30 # 1; 60 # 1] (-10) 60
  = inl (xr.non_unique_label xr.Right 60).
Proof. repeat split; vm_compute; reflexivity. Qed.

(** ** When the renderers are called *)

Lemma trace_bind {A B} (m : M A) (k : A -> M B) :
  trace (bind m k) =
  match outcome m with
  | Return a => trace m ++ trace (k a)
  | Raise _ => trace m
  end.
Proof.
  destruct m as [[a|e] t]; cbn; [|reflexivity].
  destruct (k a) as [r t']. reflexivity.
Qed.

Lemma forallb_false_witness {A} (f : A -> bool) (l : list A) :
  forallb f l = false -> exists x, In x l /\ f x = false.
Proof.
  induction l as [|x t IH]; [discriminate|].
  cbn. destruct (f x) eqn:E; cbn.
  - intros H. destruct (IH H) as (y & Hy & Hf). exists y. split; [right|]; assumption.
  - intros _. exists x. split; [left; reflexivity|exact E].
Qed.

Lemma isnull_all_false (g : DataArray) :
  xr.isnull_all g = false -> has_value g.
Proof.
  unfold xr.isnull_all, has_value. intros H.
  apply forallb_false_witness in H. destruct H as (row & Hrow & H).
  apply forallb_false_witness in H. destruct H as (c & Hc & H).
  destruct c as [v|]; [|discriminate].
  exists row, v. split; assumption.
Qed.

(** The renderers show nothing on the page themselves. *)
Lemma cartopy_silent (api : cartopy_api) (g : DataArray) (d : date) :
  trace (create_map_with_cartopy api g d) = [].
Proof.
  unfold create_map_with_cartopy, gridline_labels, try_except, maybe_raise,
    mpl.pcolormesh.
  destruct (gridlines_with_crs api), (gridlines_plain api),
    (legacy_label_attrs api), (Nat.eqb (xr.ndim g) 2); reflexivity.
Qed.

Lemma plain_silent (g : DataArray) (d : date) :
  trace (create_simple_latlon_plot g d) = [].
Proof.
  unfold create_simple_latlon_plot, mpl.pcolormesh, mpl.np_min, mpl.np_max.
  destruct (Nat.eqb (xr.ndim g) 2); [|reflexivity]. cbn.
  destruct (mpl.Qmin_list (da_lon g)); [|reflexivity]. cbn.
  destruct (mpl.Qmax_list (da_lon g)); [|reflexivity]. cbn.
  destruct (mpl.Qmin_list (da_lat g)); [|reflexivity]. cbn.
  destruct (mpl.Qmax_list (da_lat g)); reflexivity.
Qed.

(** The page calls a renderer on what it was given, and only on a grid that
    is not all missing; which renderer is the capability flag's choice. *)
Lemma show_renders (e : env) (d : date) (sst_data : option DataArray)
    (r : renderer) (g : DataArray) :
  In (Render r g) (trace (show e d sst_data)) ->
  sst_data = Some g /\ xr.isnull_all g = false /\
  r = (if HAS_CARTOPY e then Cartopy else Plain).
Proof.
  unfold show.
  destruct sst_data as [data|]; [|cbn; intros [H|[]]; discriminate H].
  destruct (xr.isnull_all data) eqn:Hn; cbn [negb];
    [cbn; intros [H|[]]; discriminate H|].
  assert (Hc := cartopy_silent (cartopy e) data d).
  assert (Hp := plain_silent data d).
  unfold st_pyplot, maybe_raise, mpl.np_min, mpl.np_max.
  destruct (HAS_CARTOPY e).
  - destruct (create_map_with_cartopy (cartopy e) data d) as [[fig|ex] t];
      cbn in Hc; subst t; cbn.
    + destruct (draw_error e fig); cbn;
        [intros H; in_cases H; injection H as <- <-; auto|].
      destruct (mpl.Qmin_list (da_lat data)), (mpl.Qmax_list (da_lat data)),
        (mpl.Qmin_list (da_lon data)), (mpl.Qmax_list (da_lon data)); cbn;
        intros H; in_cases H; injection H as <- <-; auto.
    + intros H; in_cases H; injection H as <- <-; auto.
  - destruct (create_simple_latlon_plot data d) as [[fig|ex] t];
      cbn in Hp; subst t; cbn.
    + destruct (draw_error e fig); cbn;
        [intros H; in_cases H; injection H as <- <-; auto|].
      destruct (mpl.Qmin_list (da_lat data)), (mpl.Qmax_list (da_lat data)),
        (mpl.Qmin_list (da_lon data)), (mpl.Qmax_list (da_lon data)); cbn;
        intros H; in_cases H; injection H as <- <-; auto.
    + intros H; in_cases H; injection H as <- <-; auto.
Qed.

(** The header of the page and the picker show Streamlit elements only. *)
Lemma pick_date_elements (e : env) (pick : option date) :
  forallb is_st_element (trace (pick_date e pick)) = true.
Proof.
  unfold pick_date, setup_korean_font, try_except, maybe_raise, minus_days,
    date_input.
  destruct (font_file_exists e), (addfont_error e),
    (sub_days (today e) 3) as [dflt|], (sub_days (today e) 2) as [mx|]; cbn;
    try reflexivity;
    destruct (in_range min_date mx dflt); cbn; try reflexivity;
    destruct pick as [p|]; cbn; try reflexivity;
    destruct (in_range min_date mx p); reflexivity.
Qed.

Lemma load_sst_data_no_render (w : world) (d : date) (r : renderer) (g : DataArray) :
  ~ In (Render r g) (trace (load_sst_data w d)).
Proof.
  assert (Ha : forall eng, ~ In (Render r g) (trace (attempt w (data_url d) d eng))).
  { intros eng. rewrite attempt_unfold.
    destruct (remote w (data_url d) eng) as [ex|ds];
      [intros [H|[]]; discriminate H|].
    destruct (xr.contains ds "sst"); [|intros [H|[]]; discriminate H].
    destruct (xr.get_loc (ds_time ds) (datetime64 d));
      [|intros [H|[]]; discriminate H].
    destruct (slice_error ds); [intros [H|[]]; discriminate H|].
    destruct (ds_load_error ds); [intros [H|[H|[]]]; discriminate H|].
    destruct (ds_close_error ds); intros [H|[H|[H|[]]]]; discriminate H. }
  destruct (load_sst_data_cases w d)
    as [(g' & E1 & E)|[(e1 & g' & E1 & E2 & E)|(e1 & e2 & E1 & E2 & E)]];
    rewrite E; cbn; intros [H|H]; try discriminate H.
  - exact (Ha _ H).
  - apply in_app_or in H. destruct H as [H|H]; exact (Ha _ H).
  - apply in_app_or in H. destruct H as [H|H]; [exact (Ha _ H)|].
    apply in_app_or in H. destruct H as [H|[H|[]]]; [exact (Ha _ H)|discriminate H].
Qed.

(** A renderer call in a run of the page comes with the value the cache
    holds for some date after that run. *)
Lemma main_renders (e : env) (cache : gmap date (option DataArray * list event))
    (pick : option date) (r : renderer) (g : DataArray) :
  cache_ok cache ->
  In (Render r g) (trace (fst (main e cache pick))) ->
  xr.isnull_all g = false /\
  exists d els, snd (main e cache pick) !! d = Some (Some g, els).
Proof.
  intros Hok. unfold main.
  assert (Hp := pick_date_elements e pick).
  destruct (pick_date e pick) as [[d|ex] t]; cbn [trace snd] in Hp.
  - destruct (cached_records cache (net e) d) as (v & els & Hv & Hd).
    assert (Hfetch : forall r' g',
              ~ In (Render r' g') (trace (fst (cached_load_sst_data cache (net e) d)))).
    { intros r' g'. unfold cached_load_sst_data.
      destruct (cache !! d) as [[v0 els0]|] eqn:Hc.
      - cbn. apply elements_no_render. exact (proj1 (Hok _ _ _ Hc)).
      - destruct (outcome (load_sst_data (net e) d)); cbn;
          apply load_sst_data_no_render. }
    destruct (cached_load_sst_data cache (net e) d) as [fetch cache'].
    cbn [fst snd] in *.
    rewrite trace_bind. cbn [outcome trace fst snd].
    rewrite trace_bind, Hv.
    intros H. apply in_app_or in H. destruct H as [H|H];
      [exact (False_ind _ (elements_no_render _ _ _ Hp H))|].
    apply in_app_or in H. destruct H as [H|H];
      [exact (False_ind _ (Hfetch _ _ H))|].
    apply show_renders in H. destruct H as (-> & Hn & _).
    split; [exact Hn|]. exists d, els. exact Hd.
  - cbn. intros H. exact (False_ind _ (elements_no_render _ _ _ Hp H)).
Qed.

Lemma main_ok (e : env) (cache : gmap date (option DataArray * list event))
    (pick : option date) :
  cache_ok cache -> cache_ok (snd (main e cache pick)).
Proof.
  intros Hok. unfold main.
  destruct (pick_date e pick) as [[d|ex] t]; [|exact Hok].
  assert (H := cached_ok cache (net e) d Hok).
  destruct (cached_load_sst_data cache (net e) d) as [fetch cache'].
  exact H.
Qed.

Lemma session_renders (runs : list (env * option date))
    (cache : gmap date (option DataArray * list event))
    (m : M unit) (r : renderer) (g : DataArray) :
  cache_ok cache ->
  In m (session cache runs) ->
  In (Render r g) (trace m) ->
  xr.isnull_all g = false /\ wf_grid g.
Proof.
  revert cache. induction runs as [|[e pick] rest IH]; intros cache Hok Hm Hr;
    [destruct Hm|].
  cbn [session] in Hm.
  assert (Hmain := main_renders e cache pick r g Hok).
  assert (Hok' := main_ok e cache pick Hok).
  destruct (main e cache pick) as [m0 cache']. cbn [fst snd] in *.
  destruct Hm as [<-|Hm].
  - destruct (Hmain Hr) as (Hn & d & els & Hd).
    split; [exact Hn|]. exact (proj2 (Hok' _ _ _ Hd) g eq_refl).
  - exact (IH cache' Hok' Hm Hr).
Qed.

(** C10. The page calls a renderer only on the grid the fetch gave it, and
    only when that grid is not all missing; on the failure marker or an
    all-missing grid it shows the notice and nothing else.  In every session
    the grid of every renderer call has a number in it, and with it at least
    one latitude and one longitude, so the extrema the plain renderer takes
    are those of non-empty arrays. *)
Theorem renderers_only_get_valued_grids :
  (forall e d sst_data r g,
     In (Render r g) (trace (show e d sst_data)) ->
     sst_data = Some g /\ xr.isnull_all g = false /\ has_value g /\
     r = (if HAS_CARTOPY e then Cartopy else Plain)) /\
  (forall e d sst_data,
     sst_data = None \/
     (exists g, sst_data = Some g /\ xr.isnull_all g = true) ->
     show e d sst_data = (Return tt, [StInfo notice])) /\
  (forall runs m r g,
     In m (session ∅ runs) ->
     In (Render r g) (trace m) ->
     xr.isnull_all g = false /\ has_value g /\
     da_lat g <> [] /\ da_lon g <> []).
Proof.
  split; [|split].
  - intros e d sst_data r g H.
    destruct (show_renders _ _ _ _ _ H) as (Hs & Hn & Hr).
    split; [exact Hs|]. split; [exact Hn|].
    split; [exact (isnull_all_false _ Hn)|exact Hr].
  - intros e d sst_data [->|(g & -> & Hn)]; [reflexivity|].
    unfold show. rewrite Hn. reflexivity.
  - intros runs m r g Hm Hr.
    destruct (session_renders runs ∅ m r g cache_ok_empty Hm Hr) as [Hn Hwf].
    split; [exact Hn|]. split; [exact (isnull_all_false _ Hn)|].
    exact (valued_grid_nonempty g Hwf Hn).
Qed.

(** ** The sample environments, run *)

(** Nothing reachable: both opens are tried, in order, and the message
    carries the error of the default engine. *)
Example offline_fetch :
  outcome (load_sst_data Sample.offline Sample.d20230715) = Return None /\
  opens (trace (load_sst_data Sample.offline Sample.d20230715))
  = [Some "pydap"; None] /\
  last (trace (load_sst_data Sample.offline Sample.d20230715))
  = Some (StError (error_text (Some Sample.timeout))).
Proof. repeat split; vm_compute; reflexivity. Qed.

(** The bridge engine is down: the default engine's grid is returned. *)
Example fallback_fetch :
  outcome (load_sst_data Sample.pydap_down Sample.d20230715)
  = Return (Some Sample.grid) /\
  opens (trace (load_sst_data Sample.pydap_down Sample.d20230715))
  = [Some "pydap"; None].
Proof. split; vm_compute; reflexivity. Qed.

(** The bridge engine opens the archive without the variable: its handle
    stays open while the default engine's grid is returned. *)
Example missing_variable_fetch :
  outcome (load_sst_data Sample.pydap_no_sst Sample.d20230715)
  = Return (Some Sample.grid) /\
  open_handles [] (trace (load_sst_data Sample.pydap_no_sst Sample.d20230715))
  = [Some "pydap"].
Proof. split; vm_compute; reflexivity. Qed.

(** A fetch that returns a grid on the first attempt leaves no handle open. *)
Example online_fetch_closed :
  open_handles [] (trace (load_sst_data Sample.online Sample.d20230715)) = [].
Proof. vm_compute. reflexivity. Qed.

(** A date the archive does not have yet, fetched twice while the network
    goes down in between: the failure is served from the cache. *)
Example failure_is_cached :
  let first := cached_load_sst_data ∅ Sample.online Sample.d20231102 in
  let second := cached_load_sst_data (snd first) Sample.offline Sample.d20231102 in
  outcome (fst first) = Return None /\
  outcome (fst second) = Return None /\
  opens (trace (fst second)) = [].
Proof. cbn zeta. repeat split; vm_compute; reflexivity. Qed.

(** A page run without Cartopy on the sample archive ends normally, and on a
    date without data it ends with the notice. *)
Example page_without_cartopy :
  outcome (fst (main (Sample.no_cartopy Sample.online) ∅ (Some Sample.d20230715)))
  = Return tt /\
  last (trace (fst (main (Sample.no_cartopy Sample.online) ∅
                      (Some Sample.d20231102))))
  = Some (StInfo notice).
Proof. split; vm_compute; reflexivity. Qed.

(** * More of the program *)

(** ** The font set-up *)

(** X1. [setup_korean_font] never raises, also when registering the font
    fails; it always turns [axes.unicode_minus] off; the family is Pretendard
    exactly when the font file is there and was registered, and sans-serif
    with DejaVu Sans as the last resort otherwise; it warns exactly when the
    font file is missing. *)
Theorem setup_korean_font_never_raises (e : env) :
  exists rc,
    outcome (setup_korean_font e) = Return rc /\
    axes_unicode_minus rc = false /\
    (font_family rc = "Pretendard" <->
     font_file_exists e = true /\ addfont_error e = None) /\
    (font_family rc <> "Pretendard" ->
     font_family rc = "sans-serif" /\
     last (font_sans_serif rc) = Some "DejaVu Sans") /\
    ((exists msg, In (StWarning msg) (trace (setup_korean_font e))) <->
     font_file_exists e = false).
Proof.
  unfold setup_korean_font, try_except, maybe_raise.
  destruct (font_file_exists e); [destruct (addfont_error e) as [ex|]|]; cbn;
    eexists; (split; [reflexivity|]); cbn; (split; [reflexivity|]).
  - split; [split; [intros H; discriminate H|intros [_ H]; discriminate H]|].
    split; [intros _; split; reflexivity|].
    split; [intros [msg []]|intros H; discriminate H].
  - split; [split; [intros _; split; reflexivity|reflexivity]|].
    split; [intros H; exfalso; apply H; reflexivity|].
    split; [intros [msg []]|intros H; discriminate H].
  - split; [split; [intros H; discriminate H|intros [H _]; discriminate H]|].
    split; [intros _; split; reflexivity|].
    split; [reflexivity|]. intros _. eexists. left. reflexivity.
Qed.

(** ** The locator, the other way round *)

Lemma length_append (a b : string) :
  String.length (a +:+ b) = (String.length a + String.length b)%nat.
Proof.
  induction a as [|c a IH]; [reflexivity|].
  change (String c a +:+ b) with (String c (a +:+ b)). cbn. f_equal. exact IH.
Qed.

Lemma append_inj_r (s a b : string) : a +:+ s = b +:+ s -> a = b.
Proof.
  revert b. induction a as [|c a IH]; intros [|c' b] H.
  - reflexivity.
  - exfalso. apply (f_equal String.length) in H.
    rewrite !length_append in H. cbn in H. lia.
  - exfalso. apply (f_equal String.length) in H.
    rewrite !length_append in H. cbn in H. lia.
  - change (String c (a +:+ s) = String c' (b +:+ s)) in H.
    injection H as -> H. f_equal. apply IH. exact H.
Qed.

Lemma to_int_not_nil (z : Z) :
  Z.to_int z <> Decimal.Pos Decimal.Nil /\ Z.to_int z <> Decimal.Neg Decimal.Nil.
Proof.
  split; intros H; assert (Hz := DecimalZ.of_to z); rewrite H in Hz;
    cbn in Hz; subst z; discriminate H.
Qed.

Lemma str_int_inj (a b : Z) : str_int a = str_int b -> a = b.
Proof.
  unfold str_int. intros H.
  destruct (to_int_not_nil a) as [A1 A2]. destruct (to_int_not_nil b) as [B1 B2].
  assert (Ha := NilZero.isi _ A1 A2). assert (Hb := NilZero.isi _ B1 B2).
  rewrite H in Ha. rewrite Ha in Hb. injection Hb as Hb.
  apply DecimalZ.to_int_inj. exact Hb.
Qed.

(** X2. Two dates get the same locator only if they are of the same year:
    with C7, the locator tells the years apart and nothing else. *)
Theorem locator_tells_years_apart (d1 d2 : date) :
  data_url d1 = data_url d2 <-> year d1 = year d2.
Proof.
  split.
  - unfold data_url. intros H.
    apply String.app_inj in H. apply append_inj_r in H.
    apply str_int_inj. exact H.
  - intros H. unfold data_url. rewrite H. reflexivity.
Qed.

(** ** Handles after a fetch *)

Lemma open_handles_app (a b : list event) (held : list (option string)) :
  open_handles held (a ++ b) = open_handles (open_handles held a) b.
Proof.
  revert held. induction a as [|ev a IH]; intros held; [reflexivity|].
  destruct ev; cbn; try apply IH. destruct opened; apply IH.
Qed.

(** X3. The handles a fetch leaves open are exactly those of the attempts
    that were made, opened the archive and raised before reaching
    [ds.close()]; in particular a fetch whose opens all fail, or whose first
    attempt returns, leaves none. *)
Theorem handles_after_fetch (w : world) (d : date) :
  open_handles [] (trace (load_sst_data w d)) =
  (if raises_before_close w d (Some "pydap") then [Some "pydap"] else [])
  ++ match outcome (first_attempt w d) with
     | Return _ => []
     | Raise _ => if raises_before_close w d None then [None] else []
     end.
Proof.
  rewrite load_sst_data_unfold. unfold first_attempt, raises_before_close.
  rewrite !attempt_unfold.
  destruct (remote w (data_url d) (Some "pydap")) as [e1|ds1];
    [|destruct (xr.contains ds1 "sst");
      [destruct (xr.get_loc (ds_time ds1) (datetime64 d));
       [destruct (slice_error ds1);
        [|destruct (ds_load_error ds1); [|destruct (ds_close_error ds1)]]|]|]];
    cbn; try reflexivity;
    (destruct (remote w (data_url d) None) as [e2|ds2];
     [|destruct (xr.contains ds2 "sst");
       [destruct (xr.get_loc (ds_time ds2) (datetime64 d));
        [destruct (slice_error ds2);
         [|destruct (ds_load_error ds2); [|destruct (ds_close_error ds2)]]|]|]]);
    cbn; reflexivity.
Qed.

(** ** When the renderers return *)




Lemma Qmin_list_none (l : list Q) : mpl.Qmin_list l = None <-> l = [].
Proof.
  destruct l as [|x t]; [split; reflexivity|].
  cbn. destruct (mpl.Qmin_list t); split; discriminate.
Qed.

Lemma Qmax_list_none (l : list Q) : mpl.Qmax_list l = None <-> l = [].
Proof.
  destruct l as [|x t]; [split; reflexivity|].
  cbn. destruct (mpl.Qmax_list t); split; discriminate.
Qed.

(** X5. The plain renderer returns a figure exactly when the grid is
    two-dimensional and has at least one longitude and one latitude; on an
    empty axis the minimum it takes raises. *)
Theorem plain_renderer_returns (g : DataArray) (d : date) :
  (exists fig, outcome (create_simple_latlon_plot g d) = Return fig) <->
  xr.ndim g = 2%nat /\ da_lon g <> [] /\ da_lat g <> [].
Proof.
  unfold create_simple_latlon_plot, mpl.pcolormesh, mpl.np_min, mpl.np_max.
  cbn.
  destruct (Nat.eqb (xr.ndim g) 2) eqn:En; cbn;
    [apply Nat.eqb_eq in En|apply Nat.eqb_neq in En].
  - destruct (mpl.Qmin_list (da_lon g)) eqn:E1; cbn.
    + destruct (mpl.Qmax_list (da_lon g)) eqn:E2; cbn.
      * destruct (mpl.Qmin_list (da_lat g)) eqn:E3; cbn.
        -- destruct (mpl.Qmax_list (da_lat g)) eqn:E4; cbn.
           ++ split; [|intros _; eexists; reflexivity].
              intros _. split; [exact En|].
              split; intros H; [apply Qmin_list_none in H|apply Qmin_list_none in H];
                congruence.
           ++ apply Qmax_list_none in E4. split; [intros [fig H]; discriminate H|].
              intros (_ & _ & H). contradiction.
        -- apply Qmin_list_none in E3. split; [intros [fig H]; discriminate H|].
           intros (_ & _ & H). contradiction.
      * apply Qmax_list_none in E2. split; [intros [fig H]; discriminate H|].
        intros (_ & H & _). contradiction.
    + apply Qmin_list_none in E1. split; [intros [fig H]; discriminate H|].
      intros (_ & H & _). contradiction.
  - split; [intros [fig H]; discriminate H|]. intros (H & _). contradiction.
Qed.

(** ** The shape of a fetched grid *)




(** A single latitude in the box: the grid is one-dimensional. *)
Example one_row_grid :
  da_dims Edge.row_grid = ["lon"] /\ length (da_lat Edge.row_grid) = 1%nat.
Proof. split; vm_compute; reflexivity. Qed.

(** ** What the page shows *)

Lemma empty_axis_all_null (g : DataArray) :
  wf_grid g -> da_lat g = [] \/ da_lon g = [] -> xr.isnull_all g = true.
Proof.
  intros Hwf He.
  destruct (xr.isnull_all g) eqn:Hn; [reflexivity|].
  destruct (valued_grid_nonempty g Hwf Hn) as [H1 H2].
  destruct He as [He|He]; contradiction.
Qed.

(** X7. A grid with no latitude or no longitude in the box counts as all
    missing: the page shows the notice, calls no renderer, and so never
    takes the minimum of an empty axis. *)
Theorem empty_grid_shows_notice (e : env) (d : date) (g : DataArray) :
  wf_grid g ->
  da_lat g = [] \/ da_lon g = [] ->
  xr.isnull_all g = true /\
  show e d (Some g) = (Return tt, [StInfo notice]).
Proof.
  intros Hwf He.
  assert (Hn := empty_axis_all_null g Hwf He).
  split; [exact Hn|]. unfold show. rewrite Hn. reflexivity.
Qed.

Lemma empty_grid_shows_notice_witness :
  xr.isnull_all Edge.empty_grid = true /\
  show (Sample.no_cartopy Edge.north) Sample.d20230715 (Some Edge.empty_grid)
  = (Return tt, [StInfo notice]).
Proof.
  apply (empty_grid_shows_notice (Sample.no_cartopy Edge.north)
           Sample.d20230715 Edge.empty_grid).
  - split; [reflexivity|constructor].
  - left. reflexivity.
Defined.

(** An archive north of the box: the fetch succeeds with an empty grid. *)
Example north_fetch :
  outcome (load_sst_data Edge.north Sample.d20230715) = Return (Some Edge.empty_grid) /\
  da_lat Edge.empty_grid = [].
Proof. split; vm_compute; reflexivity. Qed.

Lemma render_silent (e : env) (g : DataArray) (d : date) :
  trace (render e g d) = [].
Proof.
  unfold render. destruct (HAS_CARTOPY e);
    [apply cartopy_silent|apply plain_silent].
Qed.

(** Rounding to the nearest integer moves a number by a half at most. *)
Lemma round_half_even_near (x : Q) :
  (inject_Z (round_half_even x) - (1 # 2) <= x
   <= inject_Z (round_half_even x) + (1 # 2))%Q.
Proof.
  unfold round_half_even.
  assert (Hf := Qfloor_le x). assert (Hc := Qlt_floor x).
  rewrite inject_Z_plus in Hc. change (inject_Z 1) with 1%Q in Hc.
  destruct (x - inject_Z (Qfloor x) ?= 1 # 2)%Q eqn:E.
  - apply Qeq_alt in E.
    destruct (Z.even (Qfloor x)); rewrite ?inject_Z_plus;
      change (inject_Z 1) with 1%Q; split; lra.
  - apply Qlt_alt in E. split; lra.
  - apply Qgt_alt in E. rewrite inject_Z_plus.
    change (inject_Z 1) with 1%Q. split; lra.
Qed.

(** Two decimals: the ties go to the even digit, and the sign is kept even
    when the digits are all zero. *)
Example format_2f_samples :
  format_2f (481 # 8) = "60.12" /\
  format_2f (479 # 8) = "59.88" /\
  format_2f (-79 # 8) = "-9.88" /\
  format_2f (1199 # 8) = "149.88" /\
  format_2f (-10 # 1) = "-10.00" /\
  format_2f (1 # 200) = "0.00" /\
  format_2f (3 # 200) = "0.02" /\
  format_2f (-1 # 1000) = "-0.00".
Proof. repeat split; vm_compute; reflexivity. Qed.

(** X8. On a grid with a number in it the page calls the renderer the
    capability flag selects.  When the renderer returns a figure and the
    figure is drawn without an error, the page returns after showing, in
    this order, the subheader, the figure, a caption and the grid itself;
    the caption prints the least and the greatest latitude and longitude of
    the grid, each rounded to two decimals, and never fails.  When drawing
    the figure fails, or the renderer raises, the page raises the same
    exception and has shown neither a figure nor a caption. *)
Theorem show_after_rendering (e : env) (d : date) (g : DataArray) :
  wf_grid g ->
  xr.isnull_all g = false ->
  (forall fig,
     outcome (render e g d) = Return fig ->
     exists lat_min lat_max lon_min lon_max,
       is_minimum lat_min (da_lat g) /\ is_maximum lat_max (da_lat g) /\
       is_minimum lon_min (da_lon g) /\ is_maximum lon_max (da_lon g) /\
       (draw_error e fig = None ->
        show e d (Some g) =
        (Return tt,
         figure_elements e d g fig
           (caption_text lat_min lat_max lon_min lon_max))) /\
       (forall ex,
          draw_error e fig = Some ex ->
          show e d (Some g) = (Raise ex, rendering_elements e d g))) /\
  (forall ex,
     outcome (render e g d) = Raise ex ->
     show e d (Some g) = (Raise ex, rendering_elements e d g)) /\
  (forall ev,
     In ev (rendering_elements e d g) ->
     match ev with
     | StPyplot _ | StCaption _ | StWrite _ => False
     | _ => True
     end).
Proof.
  intros Hwf Hnn.
  destruct (valued_grid_nonempty g Hwf Hnn) as [Hlat Hlon].
  destruct (Qmin_list_spec _ Hlon) as (lon_min & E1 & M1).
  destruct (Qmax_list_spec _ Hlon) as (lon_max & E2 & M2).
  destruct (Qmin_list_spec _ Hlat) as (lat_min & E3 & M3).
  destruct (Qmax_list_spec _ Hlat) as (lat_max & E4 & M4).
  assert (Hs := render_silent e g d).
  split; [|split].
  - intros fig Hf. exists lat_min, lat_max, lon_min, lon_max.
    split; [exact M3|]. split; [exact M4|]. split; [exact M1|]. split; [exact M2|].
    assert (Hr : render e g d = (Return fig, [])).
    { destruct (render e g d) as [r t]. cbn in Hf, Hs. subst r t. reflexivity. }
    rewrite (show_drawn e d g fig _ _ _ _ Hnn Hr E3 E4 E1 E2).
    split; [intros ->; reflexivity|intros ex ->; reflexivity].
  - intros ex Hf. apply show_not_drawn; [exact Hnn|].
    destruct (render e g d) as [r t]. cbn in Hf, Hs. subst r t. reflexivity.
  - intros ev H. unfold rendering_elements in H.
    destruct (HAS_CARTOPY e); cbn in H;
      repeat (destruct H as [<-|H]; [exact I|]); destruct H.
Qed.

Lemma show_after_rendering_witness :
  (forall fig,
     outcome (render (Edge.with_cartopy Edge.old_cartopy Sample.online)
                Sample.grid Sample.d20230715) = Return fig ->
     exists lat_min lat_max lon_min lon_max,
       is_minimum lat_min (da_lat Sample.grid) /\
       is_maximum lat_max (da_lat Sample.grid) /\
       is_minimum lon_min (da_lon Sample.grid) /\
       is_maximum lon_max (da_lon Sample.grid) /\
       (draw_error (Edge.with_cartopy Edge.old_cartopy Sample.online) fig = None ->
        show (Edge.with_cartopy Edge.old_cartopy Sample.online)
          Sample.d20230715 (Some Sample.grid) =
        (Return tt,
         figure_elements (Edge.with_cartopy Edge.old_cartopy Sample.online)
           Sample.d20230715 Sample.grid fig
           (caption_text lat_min lat_max lon_min lon_max))) /\
       (forall ex,
          draw_error (Edge.with_cartopy Edge.old_cartopy Sample.online) fig
          = Some ex ->
          show (Edge.with_cartopy Edge.old_cartopy Sample.online)
            Sample.d20230715 (Some Sample.grid) =
          (Raise ex,
           rendering_elements (Edge.with_cartopy Edge.old_cartopy Sample.online)
             Sample.d20230715 Sample.grid))) /\
  (forall ex,
     outcome (render (Edge.with_cartopy Edge.old_cartopy Sample.online)
                Sample.grid Sample.d20230715) = Raise ex ->
     show (Edge.with_cartopy Edge.old_cartopy Sample.online)
       Sample.d20230715 (Some Sample.grid) =
     (Raise ex,
      rendering_elements (Edge.with_cartopy Edge.old_cartopy Sample.online)
        Sample.d20230715 Sample.grid)) /\
  (forall ev,
     In ev (rendering_elements (Edge.with_cartopy Edge.old_cartopy Sample.online)
              Sample.d20230715 Sample.grid) ->
     match ev with
     | StPyplot _ | StCaption _ | StWrite _ => False
     | _ => True
     end).
Proof.
  apply (show_after_rendering (Edge.with_cartopy Edge.old_cartopy Sample.online)
           Sample.d20230715 Sample.grid).
  - split; [reflexivity|repeat constructor].
  - reflexivity.
Defined.

(** The caption of the sample grid, whose extrema are labels of the box. *)
Example sample_caption :
  last (removelast (trace (show (Sample.no_cartopy Sample.online)
                             Sample.d20230715 (Some Sample.grid))))
  = Some (StCaption "위도 -10.00 ~ 60.00, 경도 60.00 ~ 150.00").
Proof. vm_compute. reflexivity. Qed.

(** Cartopy is there but the map features cannot be fetched: the renderer
    returns, drawing the figure raises, and the page ends with that error
    before the figure, the caption and the grid. *)
Example map_features_unreachable :
  show (Edge.without_map_data Sample.online) Sample.d20230715 (Some Sample.grid)
  = (Raise Edge.no_map_data,
     rendering_elements (Edge.without_map_data Sample.online)
       Sample.d20230715 Sample.grid).
Proof. vm_compute. reflexivity. Qed.

(** With an older Cartopy the fallback gridlines are used and the page
    still ends normally; a one-row grid makes the plain renderer raise. *)
Example old_cartopy_page :
  outcome (show (Edge.with_cartopy Edge.old_cartopy Sample.online)
             Sample.d20230715 (Some Sample.grid)) = Return tt /\
  exists ex,
    outcome (show (Sample.no_cartopy Edge.thin) Sample.d20230715
               (Some Edge.row_grid)) = Raise ex.
Proof. split; [vm_compute; reflexivity|eexists; vm_compute; reflexivity]. Qed.

(** ** What a fetch shows, and shows again *)

Lemma attempt_network (w : world) (url : string) (d : date) (eng : option string) :
  forallb is_network (trace (attempt w url d eng)) = true.
Proof.
  rewrite attempt_unfold.
  destruct (remote w url eng) as [e|ds]; [reflexivity|].
  destruct (xr.contains ds "sst"); [|reflexivity].
  destruct (xr.get_loc (ds_time ds) (datetime64 d)); [|reflexivity].
  destruct (slice_error ds); [reflexivity|].
  destruct (ds_load_error ds); [reflexivity|].
  destruct (ds_close_error ds); reflexivity.
Qed.

Lemma network_is_fetch_event (t : list event) :
  forallb is_network t = true -> forallb is_fetch_event t = true.
Proof.
  induction t as [|ev t IH]; [reflexivity|].
  destruct ev; cbn; try discriminate; exact IH.
Qed.

Lemma load_sst_data_fetch_events (w : world) (d : date) :
  forallb is_fetch_event (trace (load_sst_data w d)) = true.
Proof.
  assert (H1 := network_is_fetch_event _ (attempt_network w (data_url d) d (Some "pydap"))).
  assert (H2 := network_is_fetch_event _ (attempt_network w (data_url d) d None)).
  rewrite load_sst_data_unfold.
  destruct (attempt w (data_url d) d (Some "pydap")) as [[g1|e1] t1]; cbn in *;
    [exact H1|].
  destruct (attempt w (data_url d) d None) as [[g2|e2] t2]; cbn in *;
    rewrite !forallb_app, H1, H2; reflexivity.
Qed.

Lemma filter_all {A} (p : A -> bool) (l : list A) :
  forallb p l = true -> List.filter p l = l.
Proof.
  induction l as [|x t IH]; [reflexivity|].
  cbn. destruct (p x); [|discriminate]. cbn. intros H. f_equal. exact (IH H).
Qed.

Lemma forallb_filter {A} (p q : A -> bool) (l : list A) :
  forallb p l = true -> forallb p (List.filter q l) = true.
Proof.
  induction l as [|x t IH]; [reflexivity|].
  cbn. destruct (p x) eqn:E; [|discriminate]. cbn. intros H.
  destruct (q x); cbn; rewrite ?E; exact (IH H).
Qed.

(** The elements of a fetch: the source line, then the error message when
    it failed. *)
Lemma load_sst_data_elements (w : world) (d : date) :
  exists rest,
    List.filter is_st_element (trace (load_sst_data w d)) = source_info d :: rest /\
    (outcome (load_sst_data w d) = Return None <->
     exists e, rest = [StError (error_text (Some e))]) /\
    ((exists g, outcome (load_sst_data w d) = Return (Some g)) <-> rest = []).
Proof.
  assert (H1 := attempt_no_element w (data_url d) d (Some "pydap")).
  assert (H2 := attempt_no_element w (data_url d) d None).
  rewrite load_sst_data_unfold.
  destruct (attempt w (data_url d) d (Some "pydap")) as [[g1|e1] t1];
    cbn [trace snd] in H1.
  - exists []. cbn. rewrite H1. split; [reflexivity|].
    split; split; try discriminate; eauto.
    intros [e He]. discriminate He.
  - destruct (attempt w (data_url d) d None) as [[g2|e2] t2];
      cbn [trace snd] in H2.
    + exists []. cbn. rewrite List.filter_app, H1, H2. split; [reflexivity|].
      split; split; try discriminate; eauto.
      intros [e He]. discriminate He.
    + exists [StError (error_text (Some e2))]. cbn.
      rewrite !List.filter_app, H1, H2. split; [reflexivity|].
      split; split; try discriminate; eauto.
      intros [g Hg]. discriminate Hg.
Qed.

Lemma cache_sound_empty : cache_sound ∅.
Proof. intros d v els H. rewrite lookup_empty in H. discriminate. Qed.

Lemma cached_sound (cache : gmap date (option DataArray * list event))
    (w : world) (d : date) :
  cache_sound cache -> cache_sound (snd (cached_load_sst_data cache w d)).
Proof.
  intros Hs. unfold cached_load_sst_data.
  destruct (cache !! d) as [[v els]|] eqn:Hd; [exact Hs|].
  destruct (outcome (load_sst_data w d)) as [v|e] eqn:Hv; [|exact Hs].
  cbn. intros d' v' els' H.
  destruct (decide (d = d')) as [<-|Hne].
  - rewrite lookup_insert_eq in H. injection H as <- <-.
    exists w. split; [exact Hv|reflexivity].
  - rewrite lookup_insert_ne in H by exact Hne. exact (Hs _ _ _ H).
Qed.

Lemma fetch_all_sound (calls : list (world * date))
    (cache : gmap date (option DataArray * list event)) :
  cache_sound cache -> cache_sound (fetch_all cache calls).
Proof.
  revert cache. induction calls as [|[w d] rest IH]; intros cache H; [exact H|].
  cbn. apply IH. apply cached_sound. exact H.
Qed.

Lemma cache_sound_ok (cache : gmap date (option DataArray * list event)) :
  cache_sound cache -> cache_ok cache.
Proof.
  intros Hs d v els H. destruct (Hs _ _ _ H) as (w & Hv & ->).
  split; [apply filter_elements|].
  intros g ->. exact (load_sst_data_wf _ _ _ Hv).
Qed.

(** The trace of a fetch through the cache: the fetch itself on a miss, the
    elements of the fetch that wrote the entry on a hit. *)
Lemma cached_trace (cache : gmap date (option DataArray * list event))
    (w : world) (d : date) :
  cache_sound cache ->
  exists w0,
    outcome (fst (cached_load_sst_data cache w d)) = outcome (load_sst_data w0 d) /\
    List.filter is_st_element (trace (fst (cached_load_sst_data cache w d)))
    = List.filter is_st_element (trace (load_sst_data w0 d)) /\
    (trace (fst (cached_load_sst_data cache w d)) = trace (load_sst_data w0 d) \/
     trace (fst (cached_load_sst_data cache w d))
     = List.filter is_st_element (trace (load_sst_data w0 d))).
Proof.
  intros Hs. unfold cached_load_sst_data.
  destruct (cache !! d) as [[v els]|] eqn:Hd.
  - destruct (Hs _ _ _ Hd) as (w0 & Hv & ->). exists w0. cbn.
    split; [symmetry; exact Hv|].
    split; [apply filter_all, filter_elements|right; reflexivity].
  - exists w. destruct (load_sst_data_returns w d) as [v Hv]. rewrite Hv.
    cbn [fst snd]. split; [exact Hv|]. split; [reflexivity|left; reflexivity].
Qed.

(** X9. In a session, fetching a date again shows exactly the elements the
    first fetch of that date showed, and nothing else: the source line,
    followed by the error message when, and only when, that fetch had
    failed. *)
Theorem cache_hit_replays_elements
    (before between : list (world * date)) (w w' : world) (d : date) :
  let cache0 := fetch_all ∅ before in
  let first := cached_load_sst_data cache0 w d in
  let cache1 := fetch_all (snd first) between in
  let second := cached_load_sst_data cache1 w' d in
  trace (fst second) = List.filter is_st_element (trace (fst first)) /\
  exists rest,
    trace (fst second) = source_info d :: rest /\
    (outcome (fst first) = Return None <->
     exists e, rest = [StError (error_text (Some e))]) /\
    ((exists g, outcome (fst first) = Return (Some g)) <-> rest = []).
Proof.
  intros cache0 first cache1 second.
  assert (Hs0 : cache_sound cache0) by apply fetch_all_sound, cache_sound_empty.
  destruct (cached_trace cache0 w d Hs0) as (w0 & Ho & Hf & _).
  fold first in Ho, Hf.
  assert (Hent : snd first !! d
                 = Some (match outcome (load_sst_data w0 d) with
                         | Return v => v | Raise _ => None end,
                         List.filter is_st_element (trace (load_sst_data w0 d)))).
  { unfold first, cached_load_sst_data in *.
    destruct (cache0 !! d) as [[v els]|] eqn:Hd.
    - cbn in *. rewrite <- Ho.
      rewrite (filter_all _ els) in Hf; [rewrite <- Hf; exact Hd|].
      destruct (Hs0 _ _ _ Hd) as (w1 & _ & ->). apply filter_elements.
    - destruct (load_sst_data_returns w d) as [v Hv]. rewrite Hv in *.
      cbn [fst snd] in *. rewrite <- Ho, Hv. rewrite <- Hf.
      apply lookup_insert_eq. }
  assert (H1 := fetch_all_keeps between _ _ _ Hent). fold cache1 in H1.
  unfold second. rewrite (cached_hit _ _ _ _ _ H1). cbn [fst snd trace].
  split; [symmetry; exact Hf|].
  destruct (load_sst_data_elements w0 d) as (rest & E & Hn & Hg).
  exists rest. rewrite Ho. split; [exact E|]. split; assumption.
Qed.

(** ** The page when the fetch fails *)

Lemma pick_date_header (e : env) (pick : option date) :
  forallb is_header_element (trace (pick_date e pick)) = true.
Proof.
  unfold pick_date, setup_korean_font, try_except, maybe_raise, minus_days,
    date_input.
  destruct (font_file_exists e), (addfont_error e),
    (sub_days (today e) 3) as [dflt|], (sub_days (today e) 2) as [mx|]; cbn;
    try reflexivity;
    destruct (in_range min_date mx dflt); cbn; try reflexivity;
    destruct pick as [p|]; cbn; try reflexivity;
    destruct (in_range min_date mx p); reflexivity.
Qed.

Lemma forallb_weaken {A} (p q : A -> bool) (l : list A) :
  (forall x, p x = true -> q x = true) ->
  forallb p l = true -> forallb q l = true.
Proof.
  intros Hpq. induction l as [|x t IH]; [reflexivity|].
  cbn. intros H. apply andb_prop in H. destruct H as [Hx Ht].
  rewrite (Hpq x Hx), (IH Ht). reflexivity.
Qed.

(** X10. When the header of the page goes through and the fetch, fresh or
    from the cache, gives the failure marker, the page does not raise: it
    shows the header, the source line and the error message of the fetch,
    and ends on the notice; it calls no renderer and shows no figure, no
    caption and no data. *)
Theorem page_survives_failed_fetch (e : env)
    (cache : gmap date (option DataArray * list event))
    (pick : option date) (d : date) :
  cache_sound cache ->
  outcome (pick_date e pick) = Return d ->
  outcome (fst (cached_load_sst_data cache (net e) d)) = Return None ->
  outcome (fst (main e cache pick)) = Return tt /\
  last (trace (fst (main e cache pick))) = Some (StInfo notice) /\
  (exists msg, In (StError msg) (trace (fst (main e cache pick)))) /\
  In (source_info d) (trace (fst (main e cache pick))) /\
  forallb (fun ev => is_header_element ev || is_fetch_event ev)
          (trace (fst (main e cache pick))) = true.
Proof.
  intros Hs Hp Hf. unfold main.
  assert (Hh := pick_date_header e pick).
  destruct (pick_date e pick) as [r t]. cbn in Hp. subst r. cbn [trace snd] in Hh.
  destruct (cached_trace cache (net e) d Hs) as (w0 & Ho & Hel & Htr).
  assert (Hev := load_sst_data_fetch_events w0 d).
  destruct (load_sst_data_elements w0 d) as (rest & E & Hn & _).
  rewrite Ho in Hf. destruct (proj1 Hn Hf) as [e2 ->].
  assert (Hfe : forallb is_fetch_event
                  (trace (fst (cached_load_sst_data cache (net e) d))) = true).
  { destruct Htr as [-> | ->]; [exact Hev|apply forallb_filter; exact Hev]. }
  assert (Hin : forall ev, In ev [source_info d; StError (error_text (Some e2))] ->
                  In ev (trace (fst (cached_load_sst_data cache (net e) d)))).
  { intros ev Hin. rewrite <- E, <- Hel in Hin.
    apply filter_In in Hin. exact (proj1 Hin). }
  rewrite <- Ho in Hf.
  destruct (cached_load_sst_data cache (net e) d) as [[r tf] cache'].
  cbn in Hf. subst r. cbn [fst snd trace] in *.
  cbn.
  split; [reflexivity|].
  split; [rewrite app_assoc; apply last_snoc|].
  split.
  { eexists. apply in_or_app. right. apply in_or_app. left.
    apply Hin. right. left. reflexivity. }
  split.
  { apply in_or_app. right. apply in_or_app. left. apply Hin. left. reflexivity. }
  rewrite !forallb_app. cbn.
  rewrite (forallb_weaken is_header_element _ t), (forallb_weaken is_fetch_event _ tf);
    [reflexivity| | exact Hfe | | exact Hh].
  - intros x Hx. rewrite Hx. apply orb_true_r.
  - intros x Hx. rewrite Hx. reflexivity.
Qed.

Lemma page_survives_failed_fetch_witness :
  outcome (fst (main (Sample.no_cartopy Sample.offline) ∅ (Some Sample.d20230715)))
  = Return tt /\
  last (trace (fst (main (Sample.no_cartopy Sample.offline) ∅
                      (Some Sample.d20230715)))) = Some (StInfo notice) /\
  (exists msg,
     In (StError msg)
        (trace (fst (main (Sample.no_cartopy Sample.offline) ∅
                       (Some Sample.d20230715))))) /\
  In (source_info Sample.d20230715)
     (trace (fst (main (Sample.no_cartopy Sample.offline) ∅
                    (Some Sample.d20230715)))) /\
  forallb (fun ev => is_header_element ev || is_fetch_event ev)
    (trace (fst (main (Sample.no_cartopy Sample.offline) ∅
                   (Some Sample.d20230715)))) = true.
Proof.
  apply (page_survives_failed_fetch (Sample.no_cartopy Sample.offline) ∅
           (Some Sample.d20230715) Sample.d20230715).
  - intros d v els H. rewrite lookup_empty in H. discriminate H.
  - vm_compute. reflexivity.
  - vm_compute. reflexivity.
Defined.

(** ** The cache over a session *)

Lemma cached_dom (cache : gmap date (option DataArray * list event))
    (w : world) (d : date) :
  dom (snd (cached_load_sst_data cache w d)) = {[d]} ∪ dom cache.
Proof.
  unfold cached_load_sst_data.
  destruct (cache !! d) as [[v els]|] eqn:Hd.
  - cbn. assert (d ∈ dom cache) by (apply elem_of_dom; eauto). set_solver.
  - destruct (load_sst_data_returns w d) as [v Hv]. rewrite Hv. cbn.
    apply dom_insert_L.
Qed.

Lemma fetch_all_dom (calls : list (world * date))
    (cache : gmap date (option DataArray * list event)) :
  dom (fetch_all cache calls) = list_to_set (map snd calls) ∪ dom cache.
Proof.
  revert cache. induction calls as [|[w d] rest IH]; intros cache.
  - cbn. set_solver.
  - cbn [fetch_all map snd list_to_set]. rewrite IH, cached_dom. set_solver.
Qed.

(** X11. The cache of a session holds exactly the dates that were fetched,
    whether the fetch gave a grid or failed, and what it holds for a date is
    never replaced or dropped by later fetches. *)
Theorem cache_holds_fetched_dates (calls later : list (world * date)) :
  dom (fetch_all ∅ calls) = list_to_set (map snd calls) /\
  (forall d x,
     fetch_all ∅ calls !! d = Some x ->
     fetch_all (fetch_all ∅ calls) later !! d = Some x).
Proof.
  split.
  - rewrite fetch_all_dom. set_solver.
  - intros d x H. apply fetch_all_keeps. exact H.
Qed.

Lemma elements_no_opens (t : list event) :
  forallb is_st_element t = true -> opens t = [].
Proof.
  induction t as [|ev t IH]; [reflexivity|].
  destruct ev; cbn; try discriminate; exact IH.
Qed.

Lemma fetch_log_opens (calls : list (world * date))
    (cache : gmap date (option DataArray * list event)) :
  cache_ok cache ->
  (length (opens (fetch_log cache calls)) + 2 * size cache
   <= 2 * size (fetch_all cache calls))%nat.
Proof.
  revert cache. induction calls as [|[w d] rest IH]; intros cache Hok.
  - cbn. lia.
  - cbn [fetch_log fetch_all]. rewrite opens_app, length_app.
    specialize (IH _ (cached_ok cache w d Hok)).
    unfold cached_load_sst_data in *.
    destruct (cache !! d) as [[v els]|] eqn:Hd.
    + cbn [fst snd trace] in *.
      rewrite (elements_no_opens _ (proj1 (Hok _ _ _ Hd))). cbn. lia.
    + destruct (load_sst_data_returns w d) as [v Hv]. rewrite Hv in *.
      cbn [fst snd] in *.
      assert (Ho := load_sst_data_opens w d).
      assert (Hl : (length (opens (trace (load_sst_data w d))) <= 2)%nat).
      { rewrite Ho. destruct (outcome (first_attempt w d)); cbn; lia. }
      rewrite map_size_insert_None in IH by exact Hd. lia.
Qed.

(** X12. Over a whole session of fetches no more open calls are issued than
    two for each distinct date fetched, however often the dates are viewed
    again. *)
Theorem session_opens_bounded (calls : list (world * date)) :
  (length (opens (fetch_log ∅ calls))
   <= 2 * size (list_to_set (map snd calls) : gset date))%nat.
Proof.
  assert (H := fetch_log_opens calls ∅ cache_ok_empty).
  rewrite map_size_empty in H.
  assert (Hd := fetch_all_dom calls ∅).
  rewrite dom_empty_L, (right_id_L ∅ (∪)) in Hd.
  rewrite <- Hd, size_dom. lia.
Qed.

(** ** The colour scale, end to end *)

Lemma sst_level_cases (v : Q) :
  ((v < inject_Z 20)%Q /\ sst_level v = 0%Q) \/
  ((inject_Z 34 < v)%Q /\ sst_level v = 1%Q) \/
  ((inject_Z 20 <= v)%Q /\ (v < inject_Z 30)%Q /\
   (sst_level v == (v - inject_Z 20) * (1 # 20))%Q) \/
  ((inject_Z 30 <= v)%Q /\ (v <= inject_Z 34)%Q /\
   (sst_level v == (v - inject_Z 30) * (1 # 8) + (1 # 2))%Q).
Proof.
  unfold sst_level, mpl.norm_call, sst_norm. cbn [vmin vcenter vmax].
  destruct (xr.Qlt_bool v (inject_Z 20)) eqn:E1.
  { left. apply Qlt_bool_true in E1. split; [exact E1|reflexivity]. }
  apply Qlt_bool_false in E1.
  destruct (xr.Qlt_bool (inject_Z 34) v) eqn:E2.
  { right; left. apply Qlt_bool_true in E2. split; [exact E2|reflexivity]. }
  apply Qlt_bool_false in E2.
  destruct (xr.Qlt_bool v (inject_Z 30)) eqn:E3.
  - right; right; left. apply Qlt_bool_true in E3.
    split; [exact E1|]. split; [exact E3|]. field.
  - right; right; right. apply Qlt_bool_false in E3.
    split; [exact E3|]. split; [exact E2|]. field.
Qed.

Lemma sst_level_range (v : Q) : (0 <= sst_level v <= 1)%Q.
Proof.
  destruct (sst_level_cases v) as [[H ->]|[[H ->]|[(H1 & H2 & ->)|(H1 & H2 & ->)]]];
    unfold inject_Z in *; lra.
Qed.

Lemma sst_level_monotone (v1 v2 : Q) :
  (v1 <= v2)%Q -> (sst_level v1 <= sst_level v2)%Q.
Proof.
  intros H.
  destruct (sst_level_cases v1) as [[A ->]|[[A ->]|[(A1 & A2 & ->)|(A1 & A2 & ->)]]];
    destruct (sst_level_cases v2) as [[B ->]|[[B ->]|[(B1 & B2 & ->)|(B1 & B2 & ->)]]];
    unfold inject_Z in *; lra.
Qed.

Lemma cmap_call_in_range (x : Q) :
  (0 <= x <= 1)%Q ->
  mpl.cmap_call mpl.image_lut (mpl.Fin x)
  = mpl.Entry (Z.min 255 (Qfloor (x * inject_Z 256))).
Proof.
  intros [H0 H1]. unfold mpl.cmap_call, mpl.image_lut.
  destruct (Qeq_bool (x * inject_Z 256) (inject_Z 256)) eqn:E.
  - apply Qeq_bool_iff in E. rewrite (Qfloor_comp _ _ E), Qfloor_Z. reflexivity.
  - assert (Hne : ~ (x * inject_Z 256 == inject_Z 256)%Q).
    { intros Hc. apply Qeq_bool_iff in Hc. congruence. }
    assert (E2 : xr.Qlt_bool (x * inject_Z 256) 0 = false).
    { apply Qlt_bool_false. unfold inject_Z. lra. }
    rewrite E2.
    assert (Hlt : (x * inject_Z 256 < inject_Z 256)%Q).
    { apply Qnot_le_lt. intros Hc. apply Hne. apply Qle_antisym; [|exact Hc].
      unfold inject_Z. lra. }
    assert (E3 : Qle_bool (inject_Z 256) (x * inject_Z 256) = false).
    { destruct (Qle_bool (inject_Z 256) (x * inject_Z 256)) eqn:E3; [|reflexivity].
      apply Qle_bool_iff in E3. exfalso. exact (Qlt_not_le _ _ Hlt E3). }
    rewrite E3. f_equal.
    assert (Hf : (Qfloor (x * inject_Z 256) < 256)%Z).
    { apply Z.lt_nge. intros Hc.
      assert (Hq : (inject_Z 256 <= inject_Z (Qfloor (x * inject_Z 256)))%Q)
        by (rewrite <- Zle_Qle; exact Hc).
      assert (Hq2 := Qfloor_le (x * inject_Z 256)).
      exact (Qlt_not_le _ _ Hlt (Qle_trans _ _ _ Hq Hq2)). }
    lia.
Qed.

(** The colour of a number is the palette entry of its level. *)
Lemma sst_color_entry (v : Q) :
  sst_color (Some v)
  = mpl.Entry (Z.min 255 (Qfloor (sst_level v * inject_Z 256))).
Proof.
  assert (Hr := sst_level_range v).
  unfold sst_color. unfold sst_level in *.
  destruct (mpl.norm_call sst_norm (Some v)) eqn:E.
  - reflexivity.
  - apply cmap_call_in_range. exact Hr.
  - reflexivity.
  - unfold mpl.norm_call in E.
    destruct (xr.Qlt_bool v (vmin sst_norm)); [discriminate|].
    destruct (xr.Qlt_bool (vmax sst_norm) v); [discriminate|].
    destruct (xr.Qlt_bool v (vcenter sst_norm)); discriminate.
Qed.

(** X13. Every temperature is given one of the 256 entries of the palette,
    a warmer cell never an earlier entry than a cooler one; only a missing
    cell is left transparent. *)
Theorem sst_color_monotone (v1 v2 : Q) :
  (v1 <= v2)%Q ->
  exists i1 i2,
    sst_color (Some v1) = mpl.Entry i1 /\
    sst_color (Some v2) = mpl.Entry i2 /\
    0 <= i1 /\ i1 <= i2 /\ i2 <= mpl.image_lut - 1 /\
    sst_color None = mpl.Transparent.
Proof.
  intros H.
  exists (Z.min 255 (Qfloor (sst_level v1 * inject_Z 256))),
         (Z.min 255 (Qfloor (sst_level v2 * inject_Z 256))).
  split; [apply sst_color_entry|]. split; [apply sst_color_entry|].
  assert (Hm := sst_level_monotone v1 v2 H).
  assert (Hr := sst_level_range v1).
  assert (Hf : (Qfloor (sst_level v1 * inject_Z 256)
                <= Qfloor (sst_level v2 * inject_Z 256))%Z).
  { apply Qfloor_resp_le. unfold inject_Z. nra. }
  assert (H0 : (0 <= Qfloor (sst_level v1 * inject_Z 256))%Z).
  { change 0%Z with (Qfloor 0). apply Qfloor_resp_le. unfold inject_Z. nra. }
  unfold mpl.image_lut.
  split; [lia|]. split; [lia|]. split; [lia|reflexivity].
Qed.

Lemma sst_color_monotone_witness :
  exists i1 i2,
    sst_color (Some (inject_Z 25)) = mpl.Entry i1 /\
    sst_color (Some (inject_Z 31)) = mpl.Entry i2 /\
    0 <= i1 /\ i1 <= i2 /\ i2 <= mpl.image_lut - 1 /\
    sst_color None = mpl.Transparent.
Proof.
  apply (sst_color_monotone (inject_Z 25) (inject_Z 31)). discriminate.
Defined.

(** 25 degrees sits a quarter of the way up the palette, 31 degrees five
    eighths. *)
Example sst_color_samples :
  sst_color (Some (inject_Z 25)) = mpl.Entry 64 /\
  sst_color (Some (inject_Z 31)) = mpl.Entry 160.
Proof. split; reflexivity. Qed.

(** ** The calendar behind the date picker *)

Lemma month_day_table :
  forallb (month_day_ok true) (zrange 0 365) = true /\
  forallb (month_day_ok false) (zrange 0 365) = true.
Proof. split; vm_compute; reflexivity. Qed.

Lemma month_day_spec (n : Z) (leapyear : bool) :
  0 <= n <= 364 -> month_day_ok leapyear n = true.
Proof.
  intros H.
  assert (Hin : In n (zrange 0 365)) by (apply in_zrange; lia).
  destruct leapyear.
  - exact (proj1 (forallb_forall _ _) (proj1 month_day_table) _ Hin).
  - exact (proj1 (forallb_forall _ _) (proj2 month_day_table) _ Hin).
Qed.

Lemma is_leap_spec (y : Z) :
  Py._is_leap y = true <-> (y mod 4 = 0 /\ (y mod 100 <> 0 \/ y mod 400 = 0)).
Proof.
  unfold Py._is_leap.
  destruct (Z.eqb_spec (y mod 4) 0), (Z.eqb_spec (y mod 100) 0),
    (Z.eqb_spec (y mod 400) 0); cbn; split; intros; try discriminate;
    try tauto; try lia; auto.
Qed.

Lemma days_before_year_split (a b c e : Z) :
  0 <= b <= 3 -> 0 <= c <= 24 -> 0 <= e <= 3 ->
  Py._days_before_year (400 * a + 100 * b + 4 * c + e + 1)
  = 146097 * a + 36524 * b + 1461 * c + 365 * e.
Proof.
  intros Hb Hc He. unfold Py._days_before_year. cbv zeta.
  replace (400 * a + 100 * b + 4 * c + e + 1 - 1)
    with (400 * a + 100 * b + 4 * c + e) by lia.
  assert (H4 : (400 * a + 100 * b + 4 * c + e) / 4 = 100 * a + 25 * b + c).
  { symmetry. apply (Z.div_unique _ 4 _ e); lia. }
  assert (H100 : (400 * a + 100 * b + 4 * c + e) / 100 = 4 * a + b).
  { symmetry. apply (Z.div_unique _ 100 _ (4 * c + e)); lia. }
  assert (H400 : (400 * a + 100 * b + 4 * c + e) / 400 = a).
  { symmetry. apply (Z.div_unique _ 400 _ (100 * b + 4 * c + e)); lia. }
  rewrite H4, H100, H400. lia.
Qed.

Lemma is_leap_split (a b c e : Z) :
  0 <= b <= 3 -> 0 <= c <= 24 -> 0 <= e <= 3 ->
  Py._is_leap (400 * a + 100 * b + 4 * c + e + 1)
  = (e =? 3) && (negb (c =? 24) || (b =? 3)).
Proof.
  intros Hb Hc He.
  set (y := 400 * a + 100 * b + 4 * c + e + 1).
  assert (M4 : y mod 4 = (e + 1) mod 4).
  { unfold y. replace (400 * a + 100 * b + 4 * c + e + 1)
      with ((e + 1) + (100 * a + 25 * b + c) * 4) by lia.
    apply Z.mod_add. lia. }
  assert (M100 : y mod 100 = (4 * c + e + 1) mod 100).
  { unfold y. replace (400 * a + 100 * b + 4 * c + e + 1)
      with ((4 * c + e + 1) + (4 * a + b) * 100) by lia.
    apply Z.mod_add. lia. }
  assert (M400 : y mod 400 = (100 * b + 4 * c + e + 1) mod 400).
  { unfold y. replace (400 * a + 100 * b + 4 * c + e + 1)
      with ((100 * b + 4 * c + e + 1) + a * 400) by lia.
    apply Z.mod_add. lia. }
  unfold Py._is_leap. rewrite M4, M100, M400.
  destruct (Z.eqb_spec e 3) as [E|E], (Z.eqb_spec c 24) as [C|C],
    (Z.eqb_spec b 3) as [B|B]; cbn;
    repeat match goal with
           | |- context [(?x mod ?k =? 0)] =>
               destruct (Z.eqb_spec (x mod k) 0)
           end; cbn; try reflexivity; exfalso;
    Z.div_mod_to_equations; lia.
Qed.

(** The day of an ordinal, and back. *)
Lemma ord2ymd_toordinal (n : Z) : Py.toordinal (Py._ord2ymd n) = n.
Proof.
  unfold Py._ord2ymd. cbv zeta.
  unfold Py._DI400Y, Py._DI100Y, Py._DI4Y.
  set (a := (n - 1) / 146097).
  set (r400 := (n - 1) mod 146097).
  set (b := r400 / 36524).
  set (r100 := r400 mod 36524).
  set (c := r100 / 1461).
  set (r4 := r100 mod 1461).
  set (e := r4 / 365).
  set (r := r4 mod 365).
  assert (Hn : n - 1 = 146097 * a + r400 /\ 0 <= r400 < 146097).
  { unfold a, r400. Z.div_mod_to_equations. lia. }
  assert (H400 : r400 = 36524 * b + r100 /\ 0 <= r100 < 36524 /\ 0 <= b <= 4).
  { unfold b, r100. Z.div_mod_to_equations. lia. }
  assert (H100 : r100 = 1461 * c + r4 /\ 0 <= r4 < 1461 /\ 0 <= c <= 24).
  { unfold c, r4. Z.div_mod_to_equations. lia. }
  assert (H4 : r4 = 365 * e + r /\ 0 <= r < 365 /\ 0 <= e <= 4).
  { unfold e, r. Z.div_mod_to_equations. lia. }
  clearbody a r400 b r100 c r4 e r.
  destruct Hn as [Hn Hr400]. destruct H400 as (H400 & Hr100 & Hb).
  destruct H100 as (H100 & Hr4 & Hc). destruct H4 as (H4 & Hr & He).
  destruct ((e =? 4) || (b =? 4)) eqn:Elast.
  - (* the last day of a year *)
    unfold Py.toordinal, Py._ymd2ord. cbn [year month day].
    unfold Py._days_before_month. cbn [Py._DAYS_BEFORE_MONTH Z.ltb Z.compare andb].
    apply orb_true_iff in Elast. destruct Elast as [E|E]; apply Z.eqb_eq in E.
    + (* e = 4: r4 = 1460 *)
      assert (r = 0) by lia. subst e r.
      assert (Hb3 : b <= 3 \/ b = 4) by lia.
      destruct Hb3 as [Hb3|Hb4]; [|exfalso; lia].
      replace (a * 400 + 1 + b * 100 + c * 4 + 4 - 1)
        with (400 * a + 100 * b + 4 * c + 3 + 1) by lia.
      rewrite days_before_year_split, is_leap_split by lia.
      cbn. destruct (Z.eqb_spec c 24), (Z.eqb_spec b 3); cbn; lia.
    + (* b = 4: r400 = 146096 *)
      subst b. assert (r100 = 0) by lia. subst r100.
      assert (c = 0) by lia. assert (r4 = 0) by lia. subst c r4.
      assert (e = 0) by lia. assert (r = 0) by lia. subst e r.
      replace (a * 400 + 1 + 4 * 100 + 0 * 4 + 0 - 1)
        with (400 * a + 100 * 3 + 4 * 24 + 3 + 1) by lia.
      rewrite days_before_year_split, is_leap_split by lia.
      cbn. lia.
  - apply orb_false_iff in Elast. destruct Elast as [E1 E2].
    apply Z.eqb_neq in E1. apply Z.eqb_neq in E2.
    replace (a * 400 + 1 + b * 100 + c * 4 + e)
      with (400 * a + 100 * b + 4 * c + e + 1) by lia.
    set (leap := (e =? 3) && (negb (c =? 24) || (b =? 3))).
    assert (Hmd := month_day_spec r leap ltac:(lia)).
    unfold month_day_ok, month_day in Hmd. cbv zeta in Hmd.
    set (y := 400 * a + 100 * b + 4 * c + e + 1) in *.
    assert (Hleap : Py._is_leap y = leap) by (apply is_leap_split; lia).
    assert (Hy : Py._days_before_year y = n - 1 - r).
    { unfold y. rewrite days_before_year_split by lia. lia. }
    destruct (r <? Py._DAYS_BEFORE_MONTH (Z.shiftr (r + 50) 5)
                   + (if (2 <? Z.shiftr (r + 50) 5) && leap then 1 else 0));
      cbn [fst snd] in Hmd;
      repeat (apply andb_prop in Hmd; destruct Hmd as [Hmd ?]);
      unfold Py.toordinal, Py._ymd2ord, Py._days_before_month;
      cbn [year month day]; rewrite Hleap, Hy;
      match goal with H : (_ =? _) = true |- _ => apply Z.eqb_eq in H end; lia.
Qed.

Lemma days_before_year_succ (y : Z) :
  Py._days_before_year (y + 1)
  = Py._days_before_year y + 365 + (if Py._is_leap y then 1 else 0).
Proof.
  unfold Py._days_before_year, Py._is_leap. cbv zeta.
  replace (y + 1 - 1) with y by lia.
  destruct (Z.eqb_spec (y mod 4) 0), (Z.eqb_spec (y mod 100) 0),
    (Z.eqb_spec (y mod 400) 0); cbn; Z.div_mod_to_equations; lia.
Qed.

Lemma days_before_year_mono (y y' : Z) :
  y <= y' -> Py._days_before_year y <= Py._days_before_year y'.
Proof.
  intros H. unfold Py._days_before_year. cbv zeta.
  Z.div_mod_to_equations. lia.
Qed.

(** The day of a valid date within its year. *)
Lemma day_of_year_bounds (d : date) :
  Py.valid_date d ->
  1 <= Py._days_before_month (year d) (month d) + day d
    <= 365 + (if Py._is_leap (year d) then 1 else 0).
Proof.
  destruct d as [y m dd]. unfold Py.valid_date, Py._days_before_month,
    Py._days_in_month. cbn [year month day].
  intros (_ & Hm & Hd). month_cases m; destruct (Py._is_leap y); cbn in *; lia.
Qed.

Lemma ordinal_lt (a b : date) :
  Py.valid_date a -> Py.valid_date b ->
  Py.date_cmp a b = Lt -> Py.toordinal a < Py.toordinal b.
Proof.
  intros Va Vb. assert (Ba := day_of_year_bounds a Va).
  assert (Bb := day_of_year_bounds b Vb).
  destruct a as [ya ma da], b as [yb mb db].
  unfold Py.date_cmp, Py.toordinal, Py._ymd2ord. cbn [year month day] in *.
  destruct (Z.compare_spec ya yb) as [Ey|Ey|Ey]; try discriminate.
  - subst yb. destruct (Z.compare_spec ma mb) as [Em|Em|Em]; try discriminate.
    + subst mb. rewrite Z.compare_lt_iff. lia.
    + intros _. destruct Va as (_ & Hma & Hda), Vb as (_ & Hmb & Hdb).
      cbn [year month day] in *.
      unfold Py._days_before_month, Py._days_in_month in *.
      month_cases ma; month_cases mb; try lia;
        destruct (Py._is_leap ya); cbn in *; lia.
  - intros _.
    assert (H1 := days_before_year_succ ya).
    assert (H2 := days_before_year_mono (ya + 1) yb ltac:(lia)).
    lia.
Qed.

(** Valid dates are ordered as their ordinals are. *)
Lemma date_leb_ordinal (a b : date) :
  Py.valid_date a -> Py.valid_date b ->
  Py.date_leb a b = (Py.toordinal a <=? Py.toordinal b).
Proof.
  intros Va Vb. unfold Py.date_leb.
  destruct (Py.date_cmp a b) eqn:E.
  - assert (Heq : a = b).
    { destruct a as [ya ma da], b as [yb mb db]. unfold Py.date_cmp in E.
      cbn [year month day] in E.
      destruct (Z.compare_spec ya yb); try discriminate.
      destruct (Z.compare_spec ma mb); try discriminate.
      apply Z.compare_eq in E. congruence. }
    subst b. symmetry. apply Z.leb_le. lia.
  - assert (H := ordinal_lt a b Va Vb E). symmetry. apply Z.leb_le. lia.
  - assert (E' : Py.date_cmp b a = Lt).
    { destruct a as [ya ma da], b as [yb mb db]. unfold Py.date_cmp in *.
      cbn [year month day] in *.
      rewrite (Z.compare_antisym ya yb), (Z.compare_antisym ma mb),
        (Z.compare_antisym da db).
      destruct (ya ?= yb); cbn; try discriminate; try reflexivity.
      destruct (ma ?= mb); cbn; try discriminate; try reflexivity.
      destruct (da ?= db); cbn; try discriminate; reflexivity. }
    assert (H := ordinal_lt b a Vb Va E'). symmetry. apply Z.leb_gt. lia.
Qed.

(** Every ordinal of the supported range is the ordinal of a valid date. *)
Lemma ord2ymd_valid (n : Z) :
  1 <= n <= Py._MAXORDINAL -> Py.valid_date (Py._ord2ymd n).
Proof.
  intros Hrange. unfold Py._MAXORDINAL in Hrange.
  assert (Hrt := ord2ymd_toordinal n).
  unfold Py._ord2ymd in *. cbv zeta in *.
  unfold Py._DI400Y, Py._DI100Y, Py._DI4Y in *.
  set (a := (n - 1) / 146097) in *.
  set (r400 := (n - 1) mod 146097) in *.
  set (b := r400 / 36524) in *.
  set (r100 := r400 mod 36524) in *.
  set (c := r100 / 1461) in *.
  set (r4 := r100 mod 1461) in *.
  set (e := r4 / 365) in *.
  set (r := r4 mod 365) in *.
  assert (Hn : n - 1 = 146097 * a + r400 /\ 0 <= r400 < 146097).
  { unfold a, r400. Z.div_mod_to_equations. lia. }
  assert (H400 : r400 = 36524 * b + r100 /\ 0 <= r100 < 36524 /\ 0 <= b <= 4).
  { unfold b, r100. Z.div_mod_to_equations. lia. }
  assert (H100 : r100 = 1461 * c + r4 /\ 0 <= r4 < 1461 /\ 0 <= c <= 24).
  { unfold c, r4. Z.div_mod_to_equations. lia. }
  assert (H4 : r4 = 365 * e + r /\ 0 <= r < 365 /\ 0 <= e <= 4).
  { unfold e, r. Z.div_mod_to_equations. lia. }
  clearbody a r400 b r100 c r4 e r.
  destruct Hn as [Hn Hr400]. destruct H400 as (H400 & Hr100 & Hb).
  destruct H100 as (H100 & Hr4 & Hc). destruct H4 as (H4 & Hr & He).
  assert (Ha : 0 <= a <= 24) by lia.
  assert (Hlast : a = 24 -> 36524 * b + 1461 * c + 365 * e + r <= 3652058 - 146097 * 24)
    by lia.
  destruct ((e =? 4) || (b =? 4)) eqn:Elast.
  - unfold Py.valid_date, Py._days_in_month, Py.MINYEAR, Py.MAXYEAR.
    cbn [year month day]. cbn.
    apply orb_true_iff in Elast. destruct Elast as [E|E]; apply Z.eqb_eq in E;
      lia.
  - apply orb_false_iff in Elast. destruct Elast as [E1 E2].
    apply Z.eqb_neq in E1. apply Z.eqb_neq in E2.
    set (leap := (e =? 3) && (negb (c =? 24) || (b =? 3))) in *.
    assert (Hmd := month_day_spec r leap ltac:(lia)).
    unfold month_day_ok, month_day in Hmd. cbv zeta in Hmd.
    assert (Hleap : Py._is_leap (a * 400 + 1 + b * 100 + c * 4 + e) = leap).
    { replace (a * 400 + 1 + b * 100 + c * 4 + e)
        with (400 * a + 100 * b + 4 * c + e + 1) by lia.
      apply is_leap_split; lia. }
    destruct (r <? Py._DAYS_BEFORE_MONTH (Z.shiftr (r + 50) 5)
                   + (if (2 <? Z.shiftr (r + 50) 5) && leap then 1 else 0));
      cbn [fst snd] in Hmd;
      repeat (apply andb_prop in Hmd; destruct Hmd as [Hmd ?]);
      unfold Py.valid_date, Py._days_in_month, Py.MINYEAR, Py.MAXYEAR;
      cbn [year month day]; rewrite Hleap;
      repeat match goal with
             | H : (_ <=? _) = true |- _ => apply Z.leb_le in H
             end;
      (split; [lia|]); (split; [lia|]);
      match goal with
      | |- context [(?m =? 2) && leap] =>
          destruct (m =? 2) eqn:Em; rewrite ?Em in *;
          [apply Z.eqb_eq in Em; rewrite Em in *; destruct leap; cbn in *; lia
          |cbn [andb] in *; lia]
      end.
Qed.

Lemma valid_ordinal_range (d : date) :
  Py.valid_date d -> 1 <= Py.toordinal d <= Py._MAXORDINAL.
Proof.
  intros V.
  assert (V1 : Py.valid_date (mkdate 1 1 1))
    by (unfold Py.valid_date, Py.MINYEAR, Py.MAXYEAR; cbn; lia).
  assert (V2 : Py.valid_date (mkdate 9999 12 31))
    by (unfold Py.valid_date, Py.MINYEAR, Py.MAXYEAR; cbn; lia).
  assert (H1 := date_leb_ordinal (mkdate 1 1 1) d V1 V).
  assert (H2 := date_leb_ordinal d (mkdate 9999 12 31) V V2).
  assert (L1 : Py.date_leb (mkdate 1 1 1) d = true).
  { destruct d as [y m dd], V as (Hy & Hm & Hd).
    unfold Py.date_leb, Py.date_cmp, Py.MINYEAR in *. cbn [year month day] in *.
    destruct (Z.compare_spec 1 y); try lia; try reflexivity.
    destruct (Z.compare_spec 1 m); try lia; try reflexivity.
    destruct (Z.compare_spec 1 dd); try lia; reflexivity. }
  assert (L2 : Py.date_leb d (mkdate 9999 12 31) = true).
  { destruct d as [y m dd], V as (Hy & Hm & Hd).
    unfold Py.date_leb, Py.date_cmp, Py.MAXYEAR, Py._days_in_month in *.
    cbn [year month day] in *.
    destruct (Z.compare_spec y 9999); try lia; try reflexivity.
    destruct (Z.compare_spec m 12); try lia; try reflexivity.
    subst. cbn in Hd.
    destruct (Z.compare_spec dd 31); try lia; reflexivity. }
  rewrite L1 in H1. rewrite L2 in H2.
  symmetry in H1, H2. apply Z.leb_le in H1, H2.
  change (Py.toordinal (mkdate 1 1 1)) with 1 in H1.
  change (Py.toordinal (mkdate 9999 12 31)) with 3652059 in H2.
  unfold Py._MAXORDINAL. lia.
Qed.

(** Going back [k] days from a valid date, when that stays in range. *)
Lemma sub_days_spec (d : date) (k : Z) :
  Py.valid_date d ->
  (0 < Py.toordinal d - k <= Py._MAXORDINAL ->
   exists r, Py.sub_days d k = Some r /\ Py.valid_date r /\
             Py.toordinal r = Py.toordinal d - k) /\
  (~ 0 < Py.toordinal d - k <= Py._MAXORDINAL -> Py.sub_days d k = None).
Proof.
  intros V. unfold Py.sub_days. cbv zeta.
  destruct (Z.ltb_spec 0 (Py.toordinal d - k)),
    (Z.leb_spec (Py.toordinal d - k) Py._MAXORDINAL); cbn; split; intros Hr;
    try lia; try reflexivity.
  eexists. split; [reflexivity|].
  split; [apply ord2ymd_valid; lia|apply ord2ymd_toordinal].
Qed.

(** The header never fails before the picker, apart from the dates. *)
Lemma pick_date_outcome (e : env) (pick : option date) :
  outcome (pick_date e pick) =
  match Py.sub_days (today e) 3 with
  | None => Raise (Exn "OverflowError" "date value out of range")
  | Some dflt =>
      match Py.sub_days (today e) 2 with
      | None => Raise (Exn "OverflowError" "date value out of range")
      | Some mx => outcome (date_input dflt min_date mx pick)
      end
  end.
Proof.
  unfold pick_date, setup_korean_font, try_except, maybe_raise, minus_days.
  destruct (font_file_exists e), (addfont_error e),
    (Py.sub_days (today e) 3) as [dflt|], (Py.sub_days (today e) 2) as [mx|];
    cbn; try reflexivity;
    destruct (date_input dflt min_date mx pick) as [r t]; reflexivity.
Qed.

(** X14. With a valid date for today, the header of the page goes through
    exactly from 1981-09-04 on: before, the default of the picker falls
    under its lower bound (or out of the calendar) and an exception escapes.
    When it goes through, the date it yields is never earlier than
    1981-09-01 nor later than two days before today, and without a choice of
    the user it is the day three days before today. *)
Theorem date_picker_bounds (e : env) (pick : option date) :
  Py.valid_date (today e) ->
  (forall p, pick = Some p -> Py.valid_date p) ->
  ((exists sel, outcome (pick_date e pick) = Return sel) <->
   Py.date_leb first_day (today e) = true) /\
  (forall sel,
     outcome (pick_date e pick) = Return sel ->
     Py.valid_date sel /\
     Py.toordinal min_date <= Py.toordinal sel <= Py.toordinal (today e) - 2 /\
     (pick = None -> Py.toordinal sel = Py.toordinal (today e) - 3)).
Proof.
  intros V Vp.
  assert (Vmin : Py.valid_date min_date)
    by (unfold Py.valid_date, Py.MINYEAR, Py.MAXYEAR; cbn; lia).
  assert (Vfirst : Py.valid_date first_day)
    by (unfold Py.valid_date, Py.MINYEAR, Py.MAXYEAR; cbn; lia).
  assert (Hr := valid_ordinal_range _ V).
  assert (Hf := date_leb_ordinal first_day (today e) Vfirst V).
  change (Py.toordinal first_day) with 723427 in Hf.
  change (Py.toordinal min_date) with 723424.
  rewrite pick_date_outcome.
  destruct (sub_days_spec (today e) 3 V) as [S3 N3].
  destruct (sub_days_spec (today e) 2 V) as [S2 N2].
  destruct (Z.lt_ge_cases 3 (Py.toordinal (today e))) as [Ho|Ho].
  - destruct S3 as (dflt & -> & Vd & Od); [lia|].
    destruct S2 as (mx & -> & Vm & Om); [lia|].
    unfold date_input, in_range.
    rewrite (date_leb_ordinal min_date dflt Vmin Vd),
      (date_leb_ordinal dflt mx Vd Vm).
    change (Py.toordinal min_date) with 723424. rewrite Od, Om.
    destruct (Z.leb_spec 723424 (Py.toordinal (today e) - 3)) as [Hlo|Hlo];
      destruct (Z.leb_spec (Py.toordinal (today e) - 3) (Py.toordinal (today e) - 2));
      try lia; cbn [andb].
    + split.
      * split; [intros _; rewrite Hf; apply Z.leb_le; lia|].
        intros _. destruct pick as [p|]; [|eexists; reflexivity].
        destruct (Py.date_leb min_date p && Py.date_leb p mx);
          eexists; reflexivity.
      * intros sel. destruct pick as [p|].
        -- specialize (Vp p eq_refl).
           rewrite (date_leb_ordinal min_date p Vmin Vp),
             (date_leb_ordinal p mx Vp Vm).
           change (Py.toordinal min_date) with 723424. rewrite Om.
           destruct (Z.leb_spec 723424 (Py.toordinal p)),
             (Z.leb_spec (Py.toordinal p) (Py.toordinal (today e) - 2));
             cbn; intros Hsel; injection Hsel as <-;
             (split; [assumption|]); (split; [lia|discriminate]).
        -- cbn. intros Hsel. injection Hsel as <-.
           split; [exact Vd|]. split; [lia|]. intros _. exact Od.
    + split; [|intros sel Hsel; discriminate Hsel].
      split; [intros [sel Hsel]; discriminate Hsel|].
      intros Hd. rewrite Hf in Hd. apply Z.leb_le in Hd. lia.
  - rewrite N3 by lia.
    split; [|intros sel Hsel; discriminate Hsel].
    split; [intros [sel Hsel]; discriminate Hsel|].
    intros Hd. rewrite Hf in Hd. apply Z.leb_le in Hd. lia.
Qed.

Lemma date_picker_bounds_witness :
  ((exists sel,
      outcome (pick_date (Sample.no_cartopy Sample.online)
                 (Some Sample.d20230715)) = Return sel) <->
   Py.date_leb first_day (today (Sample.no_cartopy Sample.online)) = true) /\
  (forall sel,
     outcome (pick_date (Sample.no_cartopy Sample.online)
                (Some Sample.d20230715)) = Return sel ->
     Py.valid_date sel /\
     Py.toordinal min_date <= Py.toordinal sel
       <= Py.toordinal (today (Sample.no_cartopy Sample.online)) - 2 /\
     (Some Sample.d20230715 = None ->
      Py.toordinal sel
      = Py.toordinal (today (Sample.no_cartopy Sample.online)) - 3)).
Proof.
  apply (date_picker_bounds (Sample.no_cartopy Sample.online)
           (Some Sample.d20230715)).
  - unfold Py.valid_date, Py.MINYEAR, Py.MAXYEAR; cbn; lia.
  - intros p H. injection H as <-.
    unfold Py.valid_date, Py.MINYEAR, Py.MAXYEAR; cbn; lia.
Defined.

(** On 1981-09-03 the default would be 1981-08-31: the picker refuses it. *)
Example too_early :
  exists ex,
    outcome (pick_date
               {| today := mkdate 1981 9 3; HAS_CARTOPY := false;
                  cartopy := Sample.modern_cartopy; font_file_exists := true;
                  addfont_error := None; draw_error := fun _ => None;
                  net := Sample.online |} None)
    = Raise ex /\ exn_class ex = "StreamlitAPIException".
Proof. eexists. split; vm_compute; reflexivity. Qed.

(** X15. Two valid dates that differ ask for different time stamps: no two
    days of the calendar select the same time slice. *)
Theorem datetime64_tells_dates_apart (d1 d2 : date) :
  Py.valid_date d1 -> Py.valid_date d2 ->
  Py.datetime64 d1 = Py.datetime64 d2 -> d1 = d2.
Proof.
  intros V1 V2 H. unfold Py.datetime64, Py.NS_PER_DAY, Py.EPOCH_ORDINAL in H.
  assert (Ho : Py.toordinal d1 = Py.toordinal d2) by lia.
  assert (L1 := date_leb_ordinal d1 d2 V1 V2).
  assert (L2 := date_leb_ordinal d2 d1 V2 V1).
  rewrite Ho in L1. rewrite Ho in L2. rewrite Z.leb_refl in L1, L2.
  unfold Py.date_leb in L1, L2.
  destruct (Py.date_cmp d1 d2) eqn:E; try discriminate L1.
  - destruct d1 as [y1 m1 a1], d2 as [y2 m2 a2]. unfold Py.date_cmp in E.
    cbn [year month day] in E.
    destruct (Z.compare_spec y1 y2); try discriminate.
    destruct (Z.compare_spec m1 m2); try discriminate.
    apply Z.compare_eq in E. congruence.
  - assert (Hlt := ordinal_lt d1 d2 V1 V2 E). lia.
Qed.

Lemma datetime64_tells_dates_apart_witness :
  Sample.d20230715 = Py._ord2ymd 738716.
Proof.
  apply (datetime64_tells_dates_apart Sample.d20230715 (Py._ord2ymd 738716)).
  - unfold Py.valid_date, Py.MINYEAR, Py.MAXYEAR; cbn; lia.
  - vm_compute. repeat split; discriminate.
  - reflexivity.
Defined.
